(** * BlogPostGenerator: the caching and retry core of src/bloger_workflow.py

    A shallow embedding of the workflow class [BlogPostGenerator]: its
    session-state cache, the bounded search retry loop, the scrape loop and
    the [run] generator, together with the properties of the orchestration
    layer.  The three agents (searcher, article scraper, writer) are
    black boxes: they are parameters of the development, and every call
    made to one of them is recorded in a call log. *)

From Stdlib Require Import Ascii.
From stdpp Require Import base option list strings gmap fin_maps.

Open Scope string_scope.
Open Scope list_scope.
Open Scope nat_scope.

(** ** Data model *)

(** Modelled from the spec: src/models.py is not among the sources.  A
    search candidate is { url, title, summary }, all strings. *)
Record SourceCandidate := {
  candidate_url : string;
  candidate_title : string;
  candidate_summary : string;
}.

(** Modelled from the spec: src/models.py is not among the sources.  The
    code reads the field [articles] of a [SearchResults]: an ordered
    sequence of candidates, possibly empty. *)
Record SearchResults := {
  articles : list SourceCandidate;
}.

(** Modelled from the spec: src/models.py is not among the sources.  A
    scraped article is { url (a string, the unique key), title, content
    body }. *)
Record ScrapedArticle := {
  url : string;
  title : string;
  body : string;
}.

(** [RunResponse.content] is untyped in the source ([Any]); these are the
    shapes the workflow distinguishes with [is None] and [isinstance]. *)
Inductive Content :=
| ContentNone
| ContentText (s : string)
| ContentSearchResults (r : SearchResults)
| ContentScrapedArticle (a : ScrapedArticle).

Record RunResponse := {
  content : Content;
}.

(** Python truthiness of a content value: [None] and the empty string are
    falsy, a model instance is truthy. *)
Definition truthy (c : Content) : bool :=
  match c with
  | ContentNone => false
  | ContentText s => if decide (s = "") then false else true
  | ContentSearchResults _ => true
  | ContentScrapedArticle _ => true
  end.

Inductive exn :=
| AgentError (msg : string)
| ValidationError (msg : string).

Inductive result (A : Type) :=
| Return (a : A)
| Raise (e : exn).
Arguments Return {A} a.
Arguments Raise {A} e.

(** [self.session_state]: the three caches the workflow keeps, each a
    dict keyed by topic.  [None] is a key that [setdefault] has not yet
    created. *)
Record SessionState := {
  blog_posts : option (gmap string Content);
  search_results : option (gmap string SearchResults);
  scraped_articles : option (gmap string (gmap string ScrapedArticle));
}.

(** The payload handed to the writer: [json.dumps] of the topic and of
    [model_dump] of every scraped article (values only, keys dropped). *)
Record WriterInput := {
  writer_topic : string;
  writer_articles : list ScrapedArticle;
}.

(** One entry of the call log per agent invocation. *)
Inductive Call :=
| SearchCall (topic : string)
| ScrapeCall (u : string)
| WriteCall (input : WriterInput).

(** What the [run] generator yields. *)
Inductive Event :=
| WorkflowCompletedEvent (c : Content)
| WriterEvent (r : RunResponse).

(** ** The session-state cache *)

Definition get_cached_blog_post (topic : string) (ss : SessionState) : Content :=
  default ContentNone (default ∅ (blog_posts ss) !! topic).

Definition add_blog_post_to_cache (topic : string) (blog_post : Content)
    (ss : SessionState) : SessionState :=
  {| blog_posts := Some (<[topic := blog_post]> (default ∅ (blog_posts ss)));
     search_results := search_results ss;
     scraped_articles := scraped_articles ss |}.

(** The cached value is a [SearchResults] instance: it is truthy and not a
    dict, so the conditional expression returns it as it is. *)
Definition get_cached_search_results (topic : string) (ss : SessionState)
    : option SearchResults :=
  default ∅ (search_results ss) !! topic.

Definition add_search_results_to_cache (topic : string) (r : SearchResults)
    (ss : SessionState) : SessionState :=
  {| blog_posts := blog_posts ss;
     search_results := Some (<[topic := r]> (default ∅ (search_results ss)));
     scraped_articles := scraped_articles ss |}.

(** [SearchResults.model_validate] on an instance of the model returns the
    instance. *)
Definition SearchResults_model_validate (r : SearchResults) : result SearchResults :=
  Return r.

(** Modelled from the spec: src/models.py is not among the sources.
    [ScrapedArticle.model_validate] applied to a dict from URLs to
    [ScrapedArticle] instances.  The model has a string field [url]; the
    dict either lacks the key or binds it to a model instance, so the
    validation raises in both cases: this is the exception it raises. *)
Definition ScrapedArticle_model_validate (d : gmap string ScrapedArticle) : exn :=
  match d !! "url" with
  | None => ValidationError "url: Field required"
  | Some _ => ValidationError "url: Input should be a valid string"
  end.

(** The cached value [d] is a dict (the annotation is
    [Dict[str, ScrapedArticle]]), so [d and isinstance(d, dict)] holds
    exactly when [d] is not empty. *)
Definition get_cached_scraped_articles (topic : string) (ss : SessionState)
    : result (option (gmap string ScrapedArticle)) :=
  match default ∅ (scraped_articles ss) !! topic with
  | None => Return None
  | Some d =>
      if decide (d = ∅) then Return (Some d)
      else Raise (ScrapedArticle_model_validate d)
  end.

Definition add_scraped_articles_to_cache (topic : string)
    (d : gmap string ScrapedArticle) (ss : SessionState) : SessionState :=
  {| blog_posts := blog_posts ss;
     search_results := search_results ss;
     scraped_articles := Some (<[topic := d]> (default ∅ (scraped_articles ss))) |}.

(** The [isinstance] tests on an agent's response. *)
Definition valid_search_response (r : option RunResponse) : option SearchResults :=
  match r with
  | Some {| content := ContentSearchResults s |} => Some s
  | _ => None
  end.

Definition valid_scrape_response (r : option RunResponse) : option ScrapedArticle :=
  match r with
  | Some {| content := ContentScrapedArticle a |} => Some a
  | _ => None
  end.

Definition not_found_message (topic : string) : string :=
  "Sorry, could not find any articles on the topic: " +:+ topic.

(** ** The session identifier (main.py, examples.py)

    Both callers derive the workflow's session id from the topic with
    [topic.lower().replace(" ", "-")].  A topic is read here as a string of
    ASCII characters, on which [str.lower] changes the letters A to Z and
    nothing else; beyond ASCII [str.lower] follows Unicode, which is not
    modelled: the properties of these functions are stated for ASCII
    topics. *)

Definition is_ascii (c : ascii) : bool := nat_of_ascii c <? 128.

Definition is_upper (c : ascii) : bool :=
  (65 <=? nat_of_ascii c) && (nat_of_ascii c <=? 90).

Definition is_space (c : ascii) : bool := nat_of_ascii c =? 32.

(** [str.lower] on one character. *)
Definition lower_char (c : ascii) : ascii :=
  if is_upper c then ascii_of_nat (nat_of_ascii c + 32) else c.

Fixpoint lower (s : string) : string :=
  match s with
  | EmptyString => EmptyString
  | String c s' => String (lower_char c) (lower s')
  end.

(** [s.replace(" ", "-")]: every space becomes a hyphen. *)
Fixpoint replace_space (s : string) : string :=
  match s with
  | EmptyString => EmptyString
  | String c s' => String (if is_space c then "-"%char else c) (replace_space s')
  end.

Definition url_safe_topic (topic : string) : string :=
  replace_space (lower topic).

Definition session_id (topic : string) : string :=
  "generate-blog-post-on-" +:+ url_safe_topic topic.

(** Every character of [s] passes the test [p]. *)
Fixpoint string_forall (p : ascii → bool) (s : string) : bool :=
  match s with
  | EmptyString => true
  | String c s' => p c && string_forall p s'
  end.

(** ** Scenarios

    Concrete agents, over a world that counts the calls made so far, and
    concrete session states. *)

Definition candidate (u : string) : SourceCandidate :=
  {| candidate_url := u; candidate_title := "title"; candidate_summary := "summary" |}.

Definition scraped (u t : string) : ScrapedArticle :=
  {| url := u; title := t; body := "text" |}.

Definition two_candidates : SearchResults :=
  {| articles := [candidate "https://a.example"; candidate "https://b.example"] |}.

Definition same_candidate_twice : SearchResults :=
  {| articles := [candidate "https://a.example"; candidate "https://a.example"] |}.

(** Every call raises. *)
Definition failing_searcher (topic : string) (n : nat)
    : result (option RunResponse) * nat :=
  (Raise (AgentError "search failed"), S n).

(** The first call answers with a text instead of a result set; the later
    ones with a result set that has no candidate. *)
Definition flaky_searcher (topic : string) (n : nat)
    : result (option RunResponse) * nat :=
  match n with
  | 0 => (Return (Some {| content := ContentText "no results" |}), 1)
  | S _ => (Return (Some {| content := ContentSearchResults {| articles := [] |} |}), S n)
  end.

Definition steady_searcher (topic : string) (n : nat)
    : result (option RunResponse) * nat :=
  (Return (Some {| content := ContentSearchResults two_candidates |}), S n).

(** Every call returns [None]. *)
Definition null_scraper (u : string) (n : nat) : result (option RunResponse) * nat :=
  (Return None, S n).

(** Every call raises. *)
Definition raising_scraper (u : string) (n : nat) : result (option RunResponse) * nat :=
  (Raise (AgentError "scrape failed"), S n).

(** Every call succeeds and reports the URL it was given. *)
Definition echo_scraper (u : string) (n : nat) : result (option RunResponse) * nat :=
  (Return (Some {| content := ContentScrapedArticle (scraped u "fresh") |}), S n).

Definition echo_writer (input : WriterInput) (n : nat)
    : list RunResponse * result Content * nat :=
  ([{| content := ContentText "chunk" |}], Return (ContentText "post"), S n).

(** The writer ends with the empty text. *)
Definition silent_writer (input : WriterInput) (n : nat)
    : list RunResponse * result Content * nat :=
  ([], Return (ContentText ""), S n).

(** The scraper raises on "https://b.example" and succeeds elsewhere. *)
Definition raising_on_b_scraper (u : string) (n : nat)
    : result (option RunResponse) * nat :=
  if decide (u = "https://b.example")
  then (Raise (AgentError "scrape failed"), S n)
  else (Return (Some {| content := ContentScrapedArticle (scraped u "fresh") |}), S n).

(** The writer yields one chunk and raises. *)
Definition raising_writer (input : WriterInput) (n : nat)
    : list RunResponse * result Content * nat :=
  ([{| content := ContentText "chunk" |}], Raise (AgentError "write failed"), S n).

Definition empty_session : SessionState :=
  {| blog_posts := None; search_results := None; scraped_articles := None |}.

(** The post cache holds the empty text for the topic "T". *)
Definition session_with_empty_post : SessionState :=
  {| blog_posts := Some {[ "T" := ContentText "" ]};
     search_results := None;
     scraped_articles := None |}.

Definition session_with_post : SessionState :=
  {| blog_posts := Some {[ "T" := ContentText "cached post" ]};
     search_results := None;
     scraped_articles := None |}.

(** A scraped set of one article. *)
Definition cached_set : gmap string ScrapedArticle :=
  {[ "https://a.example" := scraped "https://a.example" "cached" ]}.

(** ** The workflow *)

Section Workflow.

(** The outside world the agents talk to (search engine, web, language
    model): an agent's answer may depend on it and change it. *)
Context {World : Type}.

(** [self.searcher.run(topic)] and [self.article_scraper.run(url)]: the
    call raises, returns [None], or returns a response. *)
Variable searcher_run : string → World → result (option RunResponse) * World.
Variable article_scraper_run : string → World → result (option RunResponse) * World.

(** [self.writer.run(input, stream=True)] consumed to its end: the chunks
    it yields, then either an exception or the final
    [self.writer.run_response.content]. *)
Variable writer_run : WriterInput → World → (list RunResponse * result Content) * World.

Record Workflow := {
  session_state : SessionState;
  world : World;
  calls : list Call;
}.

Definition set_session (f : SessionState → SessionState) (wf : Workflow) : Workflow :=
  {| session_state := f (session_state wf); world := world wf; calls := calls wf |}.

Definition after_call (c : Call) (w : World) (wf : Workflow) : Workflow :=
  {| session_state := session_state wf; world := w; calls := calls wf ++ [c] |}.

(** *** State and exceptions *)

Definition M (A : Type) : Type := Workflow → result A * Workflow.

#[local] Instance M_ret : MRet M := λ A a wf, (Return a, wf).

#[local] Instance M_bind : MBind M := λ A B k m wf,
  match m wf with
  | (Return a, wf') => k a wf'
  | (Raise e, wf') => (Raise e, wf')
  end.

(** [try: m except Exception as e: handler e]; what [m] did to the state
    before it raised stays done. *)
Definition try_except {A} (m : M A) (handler : exn → M A) : M A := λ wf,
  match m wf with
  | (Return a, wf') => (Return a, wf')
  | (Raise e, wf') => handler e wf'
  end.

Definition gets {A} (f : SessionState → A) : M A := λ wf,
  (Return (f (session_state wf)), wf).

Definition update {A} (f : SessionState → SessionState) (a : A) : M A := λ wf,
  (Return a, set_session f wf).

Definition lift {A} (r : result A) : M A := λ wf, (r, wf).

Definition call_searcher (topic : string) : M (option RunResponse) := λ wf,
  let '(r, w) := searcher_run topic (world wf) in
  (r, after_call (SearchCall topic) w wf).

Definition call_article_scraper (u : string) : M (option RunResponse) := λ wf,
  let '(r, w) := article_scraper_run u (world wf) in
  (r, after_call (ScrapeCall u) w wf).

(** *** get_search_results *)

(** One iteration of [for attempt in range(num_attempts)]: [Some] is the
    [return] inside the loop, [None] falls through to the next attempt. *)
Definition search_attempt (topic : string) : M (option SearchResults) :=
  try_except
    (searcher_response ← call_searcher topic;
     match valid_search_response searcher_response with
     | Some results => update (add_search_results_to_cache topic results) (Some results)
     | None => mret None
     end)
    (λ _, mret None).

Fixpoint search_attempts (topic : string) (num_attempts : nat)
    : M (option SearchResults) :=
  match num_attempts with
  | 0 => mret None
  | S n =>
      r ← search_attempt topic;
      match r with
      | Some results => mret (Some results)
      | None => search_attempts topic n
      end
  end.

Definition search_results_from_cache (topic : string) : M (option SearchResults) :=
  try_except
    (cached ← gets (get_cached_search_results topic);
     match cached with
     | Some c => r ← lift (SearchResults_model_validate c); mret (Some r)
     | None => mret None
     end)
    (λ _, mret None).

Definition get_search_results (topic : string) (use_search_cache : bool)
    (num_attempts : nat) : M (option SearchResults) :=
  cached ← (if use_search_cache then search_results_from_cache topic else mret None);
  match cached with
  | Some r => mret (Some r)
  | None => search_attempts topic num_attempts
  end.

(** *** scrape_articles *)

Definition scraped_articles_from_cache (topic : string)
    : M (option (gmap string ScrapedArticle)) :=
  try_except
    (cached ← gets (get_cached_scraped_articles topic); lift cached)
    (λ _, mret None).

(** The [for article in search_results.articles] loop over the
    in-progress dict [acc]. *)
Fixpoint scrape_loop (candidates : list SourceCandidate)
    (acc : gmap string ScrapedArticle) : M (gmap string ScrapedArticle) :=
  match candidates with
  | [] => mret acc
  | article :: rest =>
      match acc !! candidate_url article with
      | Some _ => scrape_loop rest acc
      | None =>
          article_scraper_response ← call_article_scraper (candidate_url article);
          match valid_scrape_response article_scraper_response with
          | Some a => scrape_loop rest (<[url a := a]> acc)
          | None => scrape_loop rest acc
          end
      end
  end.

Definition scrape_articles (topic : string) (results : SearchResults)
    (use_scrape_cache : bool) : M (gmap string ScrapedArticle) :=
  cached ← (if use_scrape_cache then scraped_articles_from_cache topic else mret None);
  match cached with
  | Some d => mret d
  | None =>
      d ← scrape_loop (articles results) ∅;
      update (add_scraped_articles_to_cache topic d) d
  end.

(** *** run *)

(** [writer_input]: the topic and the articles of the set, keys dropped.
    The source lists them in the dict's insertion order, the map in its own
    order; the writer is a black box and nothing below depends on the
    order. *)
Definition writer_input (topic : string) (d : gmap string ScrapedArticle)
    : WriterInput :=
  {| writer_topic := topic; writer_articles := (map_to_list d).*2 |}.

(** The generator driven to its end: the events it yields, how it ends,
    and the workflow it leaves. *)
Definition run (topic : string)
    (use_search_cache use_scrape_cache use_cached_report : bool)
    (wf : Workflow) : list Event * result () * Workflow :=
  let cached_blog_post := get_cached_blog_post topic (session_state wf) in
  if use_cached_report && truthy cached_blog_post
  then ([WorkflowCompletedEvent cached_blog_post], Return (), wf)
  else
    match get_search_results topic use_search_cache 3 wf with
    | (Raise e, wf1) => ([], Raise e, wf1)
    | (Return None, wf1) =>
        ([WorkflowCompletedEvent (ContentText (not_found_message topic))], Return (), wf1)
    | (Return (Some results), wf1) =>
        if decide (length (articles results) = 0)
        then ([WorkflowCompletedEvent (ContentText (not_found_message topic))],
              Return (), wf1)
        else
          match scrape_articles topic results use_scrape_cache wf1 with
          | (Raise e, wf2) => ([], Raise e, wf2)
          | (Return d, wf2) =>
              let input := writer_input topic d in
              let '(chunks, final, w) := writer_run input (world wf2) in
              let wf3 := after_call (WriteCall input) w wf2 in
              match final with
              | Raise e => (WriterEvent <$> chunks, Raise e, wf3)
              | Return blog_post =>
                  (WriterEvent <$> chunks, Return (),
                   set_session (add_blog_post_to_cache topic blog_post) wf3)
              end
          end
    end.


(** *** Attempts of the retry loop *)

(** The world after [k] calls of the searcher on [topic]. *)
Definition world_after_searches (topic : string) (k : nat) (w : World) : World :=
  Nat.iter k (λ w, (searcher_run topic w).2) w.

(** What attempt number [k] (from 0) of the retry loop gets from the
    searcher: the results of a well-typed response, or [None] when the call
    raises or the response is not one. *)
Definition search_outcome (r : result (option RunResponse)) : option SearchResults :=
  match r with
  | Return resp => valid_search_response resp
  | Raise _ => None
  end.

Definition attempt_outcome (topic : string) (k : nat) (w : World) : option SearchResults :=
  search_outcome (searcher_run topic (world_after_searches topic k w)).1.

(** ** Properties *)

(** *** The cache accessors *)

Lemma get_add_blog_post topic post ss :
  get_cached_blog_post topic (add_blog_post_to_cache topic post ss) = post.
Proof.
  unfold get_cached_blog_post, add_blog_post_to_cache; simpl.
  by rewrite lookup_insert_eq.
Qed.

Lemma get_add_search_results topic r ss :
  get_cached_search_results topic (add_search_results_to_cache topic r ss) = Some r.
Proof.
  unfold get_cached_search_results, add_search_results_to_cache; simpl.
  by rewrite lookup_insert_eq.
Qed.

Lemma get_add_scraped_articles_empty topic ss :
  get_cached_scraped_articles topic (add_scraped_articles_to_cache topic ∅ ss)
  = Return (Some ∅).
Proof.
  unfold get_cached_scraped_articles, add_scraped_articles_to_cache; simpl.
  rewrite lookup_insert_eq. by case_decide.
Qed.

Lemma get_add_scraped_articles_nonempty topic d ss :
  d ≠ ∅ →
  get_cached_scraped_articles topic (add_scraped_articles_to_cache topic d ss)
  = Raise (ScrapedArticle_model_validate d).
Proof.
  intros Hd.
  unfold get_cached_scraped_articles, add_scraped_articles_to_cache; simpl.
  rewrite lookup_insert_eq. by case_decide.
Qed.

(** The only cached set that [get_cached_scraped_articles] returns is the
    empty one. *)
Lemma get_cached_scraped_articles_Some topic ss d :
  get_cached_scraped_articles topic ss = Return (Some d) →
  d = ∅ ∧ default ∅ (scraped_articles ss) !! topic = Some ∅.
Proof.
  unfold get_cached_scraped_articles.
  destruct (default ∅ (scraped_articles ss) !! topic) as [d'|]; [|done].
  case_decide; [|done]. intros [= <-]. by subst.
Qed.

(** *** The search stage *)

Lemma search_attempt_eq topic wf :
  search_attempt topic wf =
  let wf1 := after_call (SearchCall topic) (searcher_run topic (world wf)).2 wf in
  match search_outcome (searcher_run topic (world wf)).1 with
  | Some s => (Return (Some s), set_session (add_search_results_to_cache topic s) wf1)
  | None => (Return None, wf1)
  end.
Proof.
  unfold search_attempt, try_except, call_searcher, mbind, M_bind, mret, M_ret, update.
  destruct (searcher_run topic (world wf)) as [[resp|e] w]; simpl; [|done].
  by destruct (valid_search_response resp).
Qed.

Lemma search_attempts_S topic n wf :
  search_attempts topic (S n) wf =
  let wf1 := after_call (SearchCall topic) (searcher_run topic (world wf)).2 wf in
  match search_outcome (searcher_run topic (world wf)).1 with
  | Some s => (Return (Some s), set_session (add_search_results_to_cache topic s) wf1)
  | None => search_attempts topic n wf1
  end.
Proof.
  simpl. unfold mbind, M_bind at 1. rewrite search_attempt_eq. simpl.
  by destruct (search_outcome _).
Qed.

Lemma world_after_searches_S topic (k : nat) w :
  world_after_searches topic (S k) w =
  world_after_searches topic k (searcher_run topic w).2.
Proof. unfold world_after_searches. by rewrite Nat.iter_succ_r. Qed.

Lemma search_attempts_spec topic (n : nat) wf :
  ∃ (k : nat) r wf',
    search_attempts topic n wf = (Return r, wf') ∧
    k ≤ n ∧
    world wf' = world_after_searches topic k (world wf) ∧
    calls wf' = calls wf ++ replicate k (SearchCall topic) ∧
    match r with
    | None => k = n ∧ session_state wf' = session_state wf
    | Some s =>
        session_state wf' = add_search_results_to_cache topic s (session_state wf)
    end.
Proof.
  revert wf. induction n as [|n IH]; intros wf.
  - exists 0, None, wf. simpl. rewrite app_nil_r. done.
  - rewrite search_attempts_S. simpl.
    destruct (search_outcome _) as [s|] eqn:Hs.
    + exists 1, (Some s). eexists. split; [done|]. simpl. split; [lia|done].
    + destruct (IH (after_call (SearchCall topic)
                      (searcher_run topic (world wf)).2 wf))
        as (k & r & wf' & Heq & Hk & Hw & Hc & Hr).
      exists (S k), r, wf'. split; [done|]. split; [lia|].
      split; [by rewrite Hw, world_after_searches_S|].
      split; [by rewrite Hc; simpl; rewrite <- app_assoc|].
      destruct r; [done|]. destruct Hr as [-> Hr]. done.
Qed.

Lemma get_search_results_spec topic use_search_cache (n : nat) wf :
  ∃ (k : nat) r wf',
    get_search_results topic use_search_cache n wf = (Return r, wf') ∧
    k ≤ n ∧
    world wf' = world_after_searches topic k (world wf) ∧
    calls wf' = calls wf ++ replicate k (SearchCall topic) ∧
    match r with
    | None => k = n ∧ session_state wf' = session_state wf
    | Some s =>
        (k = 0 ∧ session_state wf' = session_state wf) ∨
        session_state wf' = add_search_results_to_cache topic s (session_state wf)
    end.
Proof.
  unfold get_search_results, mbind, M_bind.
  destruct use_search_cache; simpl.
  - unfold search_results_from_cache, try_except, gets, mbind, M_bind, lift; simpl.
    destruct (get_cached_search_results topic (session_state wf)) as [c|]; simpl.
    + exists 0, (Some c), wf. rewrite app_nil_r. split; [done|].
      split; [lia|]. split; [done|]. split; [done|]. by left.
    + destruct (search_attempts_spec topic n wf) as (k & r & wf' & ? & ? & ? & ? & Hr).
      exists k, r, wf'. repeat (split; [done|]). destruct r; [by right|done].
  - destruct (search_attempts_spec topic n wf) as (k & r & wf' & ? & ? & ? & ? & Hr).
    exists k, r, wf'. repeat (split; [done|]). destruct r; [by right|done].
Qed.

(** Failed attempts only consume the budget. *)
Lemma search_attempts_failures topic (n k : nat) wf :
  (∀ j : nat, j < k → attempt_outcome topic j (world wf) = None) →
  search_attempts topic (k + n) wf =
  search_attempts topic n
    {| session_state := session_state wf;
       world := world_after_searches topic k (world wf);
       calls := calls wf ++ replicate k (SearchCall topic) |}.
Proof.
  revert wf. induction k as [|k IH]; intros wf Hfail.
  - simpl. rewrite app_nil_r. by destruct wf.
  - replace (S k + n) with (S (k + n)) by lia.
    rewrite search_attempts_S, world_after_searches_S.
    pose proof (Hfail 0 ltac:(lia)) as H0. unfold attempt_outcome in H0.
    change (world_after_searches topic 0 (world wf)) with (world wf) in H0.
    cbv zeta. rewrite H0, IH.
    + cbn [after_call session_state world calls replicate].
      by rewrite <- app_assoc.
    + intros j Hj. specialize (Hfail (S j) ltac:(lia)).
      unfold attempt_outcome in *. by rewrite world_after_searches_S in Hfail.
Qed.

(** C4. [get_search_results] never raises and calls the searcher at most 3
    times, each time on [topic].  When the cache is not used or has no
    entry and the first success is attempt number [k] (counted from 0, so
    [k < 3]), the searcher is called exactly [k + 1] times, the results [s]
    of that attempt are returned, and after the call the search cache
    holds [s] under [topic].  [s] is any well-typed result set: one with no
    candidate is stored and returned like any other, without a further
    attempt.  When all three attempts fail the result is [None] after
    exactly 3 calls. *)
Theorem get_search_results_retries (topic : string) (use_search_cache : bool)
    (wf : Workflow) :
  (∃ (k : nat) r wf',
      get_search_results topic use_search_cache 3 wf = (Return r, wf') ∧
      k ≤ 3 ∧ calls wf' = calls wf ++ replicate k (SearchCall topic)) ∧
  (∀ (k : nat) (s : SearchResults),
      k < 3 →
      use_search_cache = false ∨
        get_cached_search_results topic (session_state wf) = None →
      (∀ j : nat, j < k → attempt_outcome topic j (world wf) = None) →
      attempt_outcome topic k (world wf) = Some s →
      get_search_results topic use_search_cache 3 wf =
        (Return (Some s),
         {| session_state := add_search_results_to_cache topic s (session_state wf);
            world := world_after_searches topic (S k) (world wf);
            calls := calls wf ++ replicate (S k) (SearchCall topic) |}) ∧
      default ∅
        (search_results
           (session_state (get_search_results topic use_search_cache 3 wf).2))
        !! topic = Some s) ∧
  (use_search_cache = false ∨
     get_cached_search_results topic (session_state wf) = None →
   (∀ j : nat, j < 3 → attempt_outcome topic j (world wf) = None) →
   get_search_results topic use_search_cache 3 wf =
     (Return None,
      {| session_state := session_state wf;
         world := world_after_searches topic 3 (world wf);
         calls := calls wf ++ replicate 3 (SearchCall topic) |})).
Proof.
  assert (use_search_cache = false ∨
            get_cached_search_results topic (session_state wf) = None →
          get_search_results topic use_search_cache 3 wf
          = search_attempts topic 3 wf) as Hloop.
  { intros Hmiss. unfold get_search_results, mbind, M_bind.
    destruct Hmiss as [->|Hnone]; [done|].
    destruct use_search_cache; [|done].
    unfold search_results_from_cache, try_except, gets, mbind, M_bind; simpl.
    by rewrite Hnone. }
  split; [|split].
  - destruct (get_search_results_spec topic use_search_cache 3 wf)
      as (k & r & wf' & Heq & Hk & _ & Hc & _).
    by exists k, r, wf'.
  - intros k s Hk Hmiss Hfail Hok.
    assert (get_search_results topic use_search_cache 3 wf =
              (Return (Some s),
               {| session_state :=
                    add_search_results_to_cache topic s (session_state wf);
                  world := world_after_searches topic (S k) (world wf);
                  calls := calls wf ++ replicate (S k) (SearchCall topic) |}))
      as Heq.
    { rewrite Hloop by done.
      replace 3 with (k + S (2 - k)) by lia.
      rewrite search_attempts_failures by done.
      rewrite search_attempts_S. cbn [world].
      unfold attempt_outcome in Hok. rewrite Hok. cbv zeta.
      unfold set_session, after_call; cbn [session_state world calls].
      assert (replicate (S k) (SearchCall topic)
              = replicate k (SearchCall topic) ++ [SearchCall topic]) as ->.
      { replace (S k) with (k + 1) by lia. by rewrite replicate_add. }
      by rewrite app_assoc. }
    split; [exact Heq|]. rewrite Heq. simpl. by rewrite lookup_insert_eq.
  - intros Hmiss Hfail. rewrite Hloop by done.
    change 3 with (3 + 0) at 1.
    by rewrite (search_attempts_failures topic 0 3 wf Hfail).
Qed.

(** C9. When [get_search_results] returns [None] the session state is the
    one it started from: nothing was written to the search cache, for
    [topic] or any other key. *)
Theorem get_search_results_none_keeps_cache (topic : string)
    (use_search_cache : bool) (num_attempts : nat) (wf wf' : Workflow) :
  get_search_results topic use_search_cache num_attempts wf = (Return None, wf') →
  session_state wf' = session_state wf ∧
  get_cached_search_results topic (session_state wf')
  = get_cached_search_results topic (session_state wf).
Proof.
  intros Heq.
  destruct (get_search_results_spec topic use_search_cache num_attempts wf)
    as (k & r & wf'' & Heq' & _ & _ & _ & Hr).
  rewrite Heq in Heq'. injection Heq' as <- <-.
  destruct Hr as [_ ->]. done.
Qed.

(** *** The scrape stage *)

Lemma scrape_loop_skip article rest acc wf :
  is_Some (acc !! candidate_url article) →
  scrape_loop (article :: rest) acc wf = scrape_loop rest acc wf.
Proof. intros [x Hx]. simpl. by rewrite Hx. Qed.

Lemma scrape_loop_call article rest acc wf :
  acc !! candidate_url article = None →
  scrape_loop (article :: rest) acc wf =
  let u := candidate_url article in
  let wf1 := after_call (ScrapeCall u) (article_scraper_run u (world wf)).2 wf in
  match (article_scraper_run u (world wf)).1 with
  | Return resp =>
      scrape_loop rest
        (match valid_scrape_response resp with
         | Some a => <[url a := a]> acc
         | None => acc
         end) wf1
  | Raise e => (Raise e, wf1)
  end.
Proof.
  intros Hnone. simpl. rewrite Hnone.
  unfold mbind, M_bind, call_article_scraper.
  destruct (article_scraper_run _ _) as [[resp|e] w]; simpl; [|done].
  by destruct (valid_scrape_response resp).
Qed.

Lemma scrape_articles_eq topic results use_scrape_cache wf :
  scrape_articles topic results use_scrape_cache wf =
  match (if use_scrape_cache
         then get_cached_scraped_articles topic (session_state wf)
         else Return None) with
  | Return (Some d) => (Return d, wf)
  | _ =>
      match scrape_loop (articles results) ∅ wf with
      | (Return d, wf1) =>
          (Return d, set_session (add_scraped_articles_to_cache topic d) wf1)
      | (Raise e, wf1) => (Raise e, wf1)
      end
  end.
Proof.
  unfold scrape_articles, mbind, M_bind.
  destruct use_scrape_cache; simpl.
  - unfold scraped_articles_from_cache, try_except, gets, lift, mbind, M_bind; simpl.
    destruct (get_cached_scraped_articles topic (session_state wf)) as [[d|]|e];
      simpl; try done;
      by destruct (scrape_loop (articles results) ∅ wf) as [[d'|e'] wf1].
  - by destruct (scrape_loop (articles results) ∅ wf) as [[d'|e'] wf1].
Qed.


(** A property of (key, article) pairs that every well-typed response of
    the scraper has under the URL it reports holds of every entry of the
    returned set. *)
Lemma scrape_loop_invariant (I : string → ScrapedArticle → Prop) :
  (∀ u w resp w' a,
      article_scraper_run u w = (Return resp, w') →
      valid_scrape_response resp = Some a → I (url a) a) →
  ∀ candidates acc wf d wf',
    map_Forall I acc →
    scrape_loop candidates acc wf = (Return d, wf') →
    map_Forall I d.
Proof.
  intros Hresp candidates.
  induction candidates as [|article rest IH]; intros acc wf d wf' Hacc Heq.
  - by injection Heq as <- <-.
  - destruct (acc !! candidate_url article) as [x|] eqn:Hk.
    + rewrite scrape_loop_skip in Heq by eauto. eauto.
    + rewrite scrape_loop_call in Heq by done. cbv zeta in Heq.
      destruct (article_scraper_run _ _) as [[resp|e] w] eqn:Hrun;
        simpl in Heq; [|done].
      apply IH in Heq; [done|].
      destruct (valid_scrape_response resp) as [a|] eqn:Hv; [|done].
      apply map_Forall_insert_2; eauto.
Qed.

(** The loop raises only when a call of the scraper on a candidate's URL
    does. *)
Lemma scrape_loop_total candidates :
  (∀ article w, article ∈ candidates →
     ∃ resp w', article_scraper_run (candidate_url article) w = (Return resp, w')) →
  ∀ acc wf, ∃ d wf', scrape_loop candidates acc wf = (Return d, wf').
Proof.
  induction candidates as [|article rest IH]; intros Hret acc wf.
  - by exists acc, wf.
  - assert (∀ article' w, article' ∈ rest →
              ∃ resp w',
                article_scraper_run (candidate_url article') w = (Return resp, w'))
      as Hrest.
    { intros article' w Hin. apply Hret. by right. }
    destruct (acc !! candidate_url article) as [x|] eqn:Hk.
    + rewrite scrape_loop_skip by eauto. by apply IH.
    + rewrite scrape_loop_call by done. cbv zeta.
      destruct (Hret article (world wf)) as (resp & w' & ->); [by left|].
      simpl. by apply IH.
Qed.


(** X16.  A response of the scraper that is not a well-typed
    article (no response, no content, content of another type) adds nothing
    to the in-progress set, and the loop goes on with the remaining
    candidates from the state the call left; and as long as the scraper
    itself does not raise on a candidate's URL, [scrape_articles] returns a
    set. *)
Theorem scrape_bad_response_skipped (topic : string) (results : SearchResults)
    (use_scrape_cache : bool) (wf0 : Workflow) :
  (∀ article rest acc wf resp w,
      acc !! candidate_url article = None →
      article_scraper_run (candidate_url article) (world wf) = (Return resp, w) →
      valid_scrape_response resp = None →
      scrape_loop (article :: rest) acc wf
      = scrape_loop rest acc
          (after_call (ScrapeCall (candidate_url article)) w wf)) ∧
  ((∀ article w, article ∈ articles results →
      ∃ resp w', article_scraper_run (candidate_url article) w = (Return resp, w')) →
   ∃ d wf', scrape_articles topic results use_scrape_cache wf0 = (Return d, wf')).
Proof.
  split.
  - intros article rest acc wf resp w Hacc Hrun Hbad.
    rewrite scrape_loop_call by done. cbv zeta. rewrite Hrun. simpl.
    by rewrite Hbad.
  - intros Hret. rewrite scrape_articles_eq.
    destruct (scrape_loop_total (articles results) Hret ∅ wf0) as (d & wf' & Hl).
    rewrite Hl.
    destruct (if use_scrape_cache then _ else _) as [[d'|]|e]; eauto.
Qed.

(** An exception of the scraper is not caught: it ends the loop, and with it
    [scrape_articles], at that candidate. *)
Lemma scrape_loop_raise article rest acc wf e w :
  acc !! candidate_url article = None →
  article_scraper_run (candidate_url article) (world wf) = (Raise e, w) →
  scrape_loop (article :: rest) acc wf
  = (Raise e, after_call (ScrapeCall (candidate_url article)) w wf).
Proof.
  intros Hacc Hrun. rewrite scrape_loop_call by done. cbv zeta.
  by rewrite Hrun.
Qed.


(** C10.  A well-typed response is stored under the URL it reports, whatever
    URL was requested; and every entry of the set [scrape_articles] returns
    has its article's URL as its key, the set being the one left in the
    scrape cache under [topic]. *)
Theorem scrape_articles_keyed_by_reported_url (topic : string)
    (results : SearchResults) (use_scrape_cache : bool) (wf0 : Workflow) :
  (∀ article rest acc wf resp w a,
      acc !! candidate_url article = None →
      article_scraper_run (candidate_url article) (world wf) = (Return resp, w) →
      valid_scrape_response resp = Some a →
      scrape_loop (article :: rest) acc wf
      = scrape_loop rest (<[url a := a]> acc)
          (after_call (ScrapeCall (candidate_url article)) w wf)) ∧
  (∀ d wf',
      scrape_articles topic results use_scrape_cache wf0 = (Return d, wf') →
      map_Forall (λ k a, url a = k) d ∧
      default ∅ (scraped_articles (session_state wf')) !! topic = Some d).
Proof.
  split.
  - intros article rest acc wf resp w a Hacc Hrun Hok.
    rewrite scrape_loop_call by done. cbv zeta. rewrite Hrun. simpl.
    by rewrite Hok.
  - intros d wf'. rewrite scrape_articles_eq.
    assert (match scrape_loop (articles results) ∅ wf0 with
            | (Return d, wf1) =>
                (Return d, set_session (add_scraped_articles_to_cache topic d) wf1)
            | (Raise e, wf1) => (Raise e, wf1)
            end = (Return d, wf') →
            map_Forall (λ k a, url a = k) d ∧
            default ∅ (scraped_articles (session_state wf')) !! topic = Some d)
      as Hfresh.
    { destruct (scrape_loop (articles results) ∅ wf0) as [[d1|e] wf1] eqn:Hl;
        [|done].
      intros [= <- <-]. split.
      - eapply (scrape_loop_invariant (λ k a, url a = k)); [done| |exact Hl].
        apply map_Forall_empty.
      - simpl. by rewrite lookup_insert_eq. }
    destruct use_scrape_cache; [|done].
    destruct (get_cached_scraped_articles topic (session_state wf0))
      as [[d'|]|e] eqn:Hc; [|done..].
    intros [= <- <-].
    apply get_cached_scraped_articles_Some in Hc as [-> Hc].
    split; [apply map_Forall_empty|done].
Qed.

(** A cached set that is not empty is never used: reading it raises, the
    exception is caught, and every candidate is scraped as if the cache had
    been switched off. *)
Lemma scrape_articles_ignores_cached_set topic results wf d :
  default ∅ (scraped_articles (session_state wf)) !! topic = Some d →
  d ≠ ∅ →
  scrape_articles topic results true wf = scrape_articles topic results false wf.
Proof.
  intros Hd Hne. rewrite !scrape_articles_eq.
  unfold get_cached_scraped_articles. rewrite Hd. by case_decide.
Qed.

(** An empty cached set is returned as it is, without a call. *)
Lemma scrape_articles_empty_cached_set topic results wf :
  default ∅ (scraped_articles (session_state wf)) !! topic = Some ∅ →
  scrape_articles topic results true wf = (Return ∅, wf).
Proof.
  intros Hd. rewrite scrape_articles_eq.
  unfold get_cached_scraped_articles. rewrite Hd. by case_decide.
Qed.

(** *** run *)

(** C5 (amended).  With [use_cached_report] set and a cached post for the
    topic that is truthy (a text that is not empty), [run] yields that
    post and nothing else, and leaves the workflow as it was: no agent is
    called and nothing is written. *)
Theorem run_returns_cached_post (topic : string)
    (use_search_cache use_scrape_cache : bool) (wf : Workflow) (post : Content) :
  default ∅ (blog_posts (session_state wf)) !! topic = Some post →
  truthy post = true →
  run topic use_search_cache use_scrape_cache true wf
  = ([WorkflowCompletedEvent post], Return (), wf).
Proof.
  intros Hpost Htrue. unfold run, get_cached_blog_post.
  rewrite Hpost. simpl. by rewrite Htrue.
Qed.

(** C6.  When the post cache does not end the run and the search stage
    returns [None] or a result set without candidates, [run] yields the
    not-found message for the topic and stops in the state the search stage
    left: the only calls made are the searcher's, the post cache and the
    scrape cache are untouched, and the search cache is unchanged at every
    other topic. *)
Theorem run_not_found (topic : string)
    (use_search_cache use_scrape_cache use_cached_report : bool)
    (wf wf1 : Workflow) (r : option SearchResults) :
  use_cached_report = false ∨
    truthy (get_cached_blog_post topic (session_state wf)) = false →
  get_search_results topic use_search_cache 3 wf = (Return r, wf1) →
  r = None ∨ (∃ s, r = Some s ∧ articles s = []) →
  run topic use_search_cache use_scrape_cache use_cached_report wf
  = ([WorkflowCompletedEvent
        (ContentText ("Sorry, could not find any articles on the topic: " +:+ topic))],
     Return (), wf1) ∧
  (∃ k : nat, k ≤ 3 ∧ calls wf1 = calls wf ++ replicate k (SearchCall topic)) ∧
  blog_posts (session_state wf1) = blog_posts (session_state wf) ∧
  scraped_articles (session_state wf1) = scraped_articles (session_state wf) ∧
  (∀ t, t ≠ topic →
     default ∅ (search_results (session_state wf1)) !! t
     = default ∅ (search_results (session_state wf)) !! t).
Proof.
  intros Hmiss Hsearch Hempty. split.
  - unfold run.
    assert (use_cached_report
            && truthy (get_cached_blog_post topic (session_state wf)) = false) as ->.
    { destruct Hmiss as [->| ->]; [done|by rewrite andb_false_r]. }
    rewrite Hsearch.
    destruct Hempty as [->|(s & -> & Hs)]; [done|].
    rewrite Hs. simpl. done.
  - destruct (get_search_results_spec topic use_search_cache 3 wf)
      as (k & r' & wf' & Heq & Hk & _ & Hc & Hr).
    rewrite Hsearch in Heq. injection Heq as <- <-.
    split; [by exists k|].
    assert (session_state wf1 = session_state wf ∨
            ∃ s, session_state wf1
                 = add_search_results_to_cache topic s (session_state wf)) as Hss.
    { destruct r as [s|]; [|by left; destruct Hr].
      destruct Hr as [[_ ?]|?]; [by left|right; by exists s]. }
    destruct Hss as [->|[s ->]]; [done|]. simpl.
    split; [done|]. split; [done|].
    intros t Ht. by rewrite lookup_insert_ne.
Qed.

(** C8.  Once the write stage is reached and the writer ends without an
    exception, [run] stores the writer's final content under the topic in
    the post cache, whatever [use_cached_report] is: the flag is only read
    at the start of [run]. *)
Theorem run_persists_post (topic : string)
    (use_search_cache use_scrape_cache use_cached_report : bool)
    (wf wf1 wf2 : Workflow) (s : SearchResults) (d : gmap string ScrapedArticle)
    (chunks : list RunResponse) (post : Content) (w : World) :
  use_cached_report = false ∨
    truthy (get_cached_blog_post topic (session_state wf)) = false →
  get_search_results topic use_search_cache 3 wf = (Return (Some s), wf1) →
  articles s ≠ [] →
  scrape_articles topic s use_scrape_cache wf1 = (Return d, wf2) →
  writer_run (writer_input topic d) (world wf2) = (chunks, Return post, w) →
  ∃ wf',
    run topic use_search_cache use_scrape_cache use_cached_report wf
    = (WriterEvent <$> chunks, Return (), wf') ∧
    session_state wf' = add_blog_post_to_cache topic post (session_state wf2) ∧
    default ∅ (blog_posts (session_state wf')) !! topic = Some post ∧
    calls wf' = calls wf2 ++ [WriteCall (writer_input topic d)].
Proof.
  intros Hmiss Hsearch Hne Hscrape Hwrite.
  eexists. split.
  - unfold run.
    assert (use_cached_report
            && truthy (get_cached_blog_post topic (session_state wf)) = false) as ->.
    { destruct Hmiss as [->| ->]; [done|by rewrite andb_false_r]. }
    rewrite Hsearch.
    destruct (decide (length (articles s) = 0)) as [Hz|_].
    { by apply nil_length_inv in Hz. }
    rewrite Hscrape. cbv zeta. rewrite Hwrite. done.
  - simpl. split; [done|]. split; [|done]. by rewrite lookup_insert_eq.
Qed.

(** ** Further properties of the workflow *)

(** *** The search stage, for every attempt budget *)

Lemma search_attempts_Some_cached topic (n : nat) wf s wf1 :
  search_attempts topic n wf = (Return (Some s), wf1) →
  get_cached_search_results topic (session_state wf1) = Some s.
Proof.
  intros Hl.
  destruct (search_attempts_spec topic n wf)
    as (k & r & wf' & Heq & _ & _ & _ & Hr).
  rewrite Hl in Heq. injection Heq as <- <-.
  rewrite Hr. apply get_add_search_results.
Qed.

Lemma get_search_results_Some_cached topic use_search_cache (n : nat) wf s wf1 :
  get_search_results topic use_search_cache n wf = (Return (Some s), wf1) →
  get_cached_search_results topic (session_state wf1) = Some s.
Proof.
  unfold get_search_results, mbind, M_bind.
  destruct use_search_cache; simpl; [|apply search_attempts_Some_cached].
  unfold search_results_from_cache, try_except, gets, mbind, M_bind, lift; simpl.
  destruct (get_cached_search_results topic (session_state wf)) as [c|] eqn:Hc;
    simpl; [|apply search_attempts_Some_cached].
  by intros [= <- <-].
Qed.

(** X1.  [get_search_results] never raises, whatever the budget
    [num_attempts]: it calls the searcher at most [num_attempts] times,
    always on [topic], changes nothing but the search cache entry of
    [topic], and a result it returns is the entry the search cache holds
    for [topic] afterwards; with [None] the session state is untouched. *)
Theorem get_search_results_frame (topic : string) (use_search_cache : bool)
    (num_attempts : nat) (wf : Workflow) :
  ∃ r wf',
    get_search_results topic use_search_cache num_attempts wf = (Return r, wf') ∧
    (∃ k : nat, k ≤ num_attempts ∧
       calls wf' = calls wf ++ replicate k (SearchCall topic)) ∧
    blog_posts (session_state wf') = blog_posts (session_state wf) ∧
    scraped_articles (session_state wf') = scraped_articles (session_state wf) ∧
    (∀ t, t ≠ topic →
       get_cached_search_results t (session_state wf')
       = get_cached_search_results t (session_state wf)) ∧
    match r with
    | Some s => get_cached_search_results topic (session_state wf') = Some s
    | None => session_state wf' = session_state wf
    end.
Proof.
  destruct (get_search_results_spec topic use_search_cache num_attempts wf)
    as (k & r & wf' & Heq & Hk & _ & Hc & Hr).
  exists r, wf'. split; [done|]. split; [by exists k|].
  destruct r as [s|].
  - pose proof (get_search_results_Some_cached _ _ _ _ _ _ Heq) as Hcached.
    destruct Hr as [[_ Hss]|Hss]; rewrite Hss in *; [done|].
    simpl. repeat (split; [done|]). split; [|done].
    intros t Ht. unfold get_cached_search_results; simpl.
    by rewrite lookup_insert_ne.
  - destruct Hr as [_ ->]. done.
Qed.

(** X2.  A result that [get_search_results] returns, fresh or from the
    cache, is what every later call for the topic returns when the cache is
    on: without a call of the searcher, without a write, whatever the
    budget. *)
Theorem get_search_results_then_cached (topic : string) (use_search_cache : bool)
    (num_attempts : nat) (wf wf1 : Workflow) (s : SearchResults) :
  get_search_results topic use_search_cache num_attempts wf = (Return (Some s), wf1) →
  ∀ (n : nat) (wf2 : Workflow),
    session_state wf2 = session_state wf1 →
    get_search_results topic true n wf2 = (Return (Some s), wf2).
Proof.
  intros Heq n wf2 Hss.
  apply get_search_results_Some_cached in Heq.
  unfold get_search_results, mbind, M_bind; simpl.
  unfold search_results_from_cache, try_except, gets, mbind, M_bind, lift; simpl.
  by rewrite Hss, Heq.
Qed.

(** *** The scrape stage *)

(** What one pass of the loop does: it leaves the session state alone, its
    calls are scrape calls on candidates' URLs in the candidates' order, a
    returned set has grown by at most one entry per call, and an exception
    is the one the last call raised. *)
Lemma scrape_loop_spec candidates acc wf r wf' :
  scrape_loop candidates acc wf = (r, wf') →
  session_state wf' = session_state wf ∧
  ∃ us : list string,
    calls wf' = calls wf ++ (ScrapeCall <$> us) ∧
    us `sublist_of` (candidate_url <$> candidates) ∧
    match r with
    | Return d => size d ≤ size acc + length us
    | Raise e =>
        ∃ us0 u w w',
          us = us0 ++ [u] ∧ article_scraper_run u w = (Raise e, w')
    end.
Proof.
  revert acc wf. induction candidates as [|article rest IH]; intros acc wf Heq.
  - injection Heq as <- <-. split; [done|]. exists [].
    rewrite app_nil_r. simpl. split; [done|]. split; [constructor|lia].
  - destruct (acc !! candidate_url article) as [x|] eqn:Hacc.
    + rewrite scrape_loop_skip in Heq by eauto.
      apply IH in Heq as [Hs (us & Hc & Hsub & Hr)]. split; [done|].
      exists us. split; [done|]. split; [by apply sublist_cons|done].
    + rewrite scrape_loop_call in Heq by done. cbv zeta in Heq.
      destruct (article_scraper_run _ _) as [[resp|e] w] eqn:Hrun; simpl in Heq.
      * apply IH in Heq as [Hs (us & Hc & Hsub & Hr)]. split; [done|].
        exists (candidate_url article :: us). simpl in *.
        split; [by rewrite Hc, <- app_assoc|].
        split; [by apply sublist_skip|].
        destruct r as [d|e].
        -- etrans; [exact Hr|].
           destruct (valid_scrape_response resp) as [a|]; [|lia].
           destruct (acc !! url a) as [y|] eqn:Hy.
           ++ rewrite map_size_insert_Some by eauto. lia.
           ++ rewrite map_size_insert_None by done. lia.
        -- destruct Hr as (us0 & u & w0 & w0' & -> & Hraise).
           by exists (candidate_url article :: us0), u, w0, w0'.
      * injection Heq as <- <-. split; [done|].
        exists [candidate_url article]. split; [done|].
        split; [apply sublist_skip; apply sublist_nil_l|].
        by exists [], (candidate_url article), (world wf), w.
Qed.

(** [scrape_articles] either returns the empty set it found in the cache,
    changing nothing, or runs the loop from the empty set and stores what
    the loop returns. *)
Lemma scrape_articles_spec topic results use_scrape_cache wf r wf' :
  scrape_articles topic results use_scrape_cache wf = (r, wf') →
  (r = Return ∅ ∧ wf' = wf ∧ use_scrape_cache = true ∧
   default ∅ (scraped_articles (session_state wf)) !! topic = Some ∅) ∨
  (∃ wf1,
     scrape_loop (articles results) ∅ wf = (r, wf1) ∧
     wf' = match r with
           | Return d => set_session (add_scraped_articles_to_cache topic d) wf1
           | Raise _ => wf1
           end).
Proof.
  rewrite scrape_articles_eq.
  assert (match scrape_loop (articles results) ∅ wf with
          | (Return d, wf1) =>
              (Return d, set_session (add_scraped_articles_to_cache topic d) wf1)
          | (Raise e, wf1) => (Raise e, wf1)
          end = (r, wf') →
          ∃ wf1,
            scrape_loop (articles results) ∅ wf = (r, wf1) ∧
            wf' = match r with
                  | Return d => set_session (add_scraped_articles_to_cache topic d) wf1
                  | Raise _ => wf1
                  end) as Hfresh.
  { destruct (scrape_loop (articles results) ∅ wf) as [[d|e] wf1];
      intros [= <- <-]; by exists wf1. }
  destruct use_scrape_cache; [|by right; apply Hfresh].
  destruct (get_cached_scraped_articles topic (session_state wf))
    as [[d|]|e] eqn:Hc; [|by right; apply Hfresh..].
  intros [= <- <-]. left.
  by apply get_cached_scraped_articles_Some in Hc as [-> Hc].
Qed.

(** X3.  The calls [scrape_articles] makes are calls of the scraper on
    candidates' URLs, in the candidates' order and at most one per
    candidate; and the set it returns has at most one entry per call made,
    so never more entries than there are candidates. *)
Theorem scrape_articles_calls (topic : string) (results : SearchResults)
    (use_scrape_cache : bool) (wf wf' : Workflow)
    (r : result (gmap string ScrapedArticle)) :
  scrape_articles topic results use_scrape_cache wf = (r, wf') →
  ∃ us : list string,
    calls wf' = calls wf ++ (ScrapeCall <$> us) ∧
    us `sublist_of` (candidate_url <$> articles results) ∧
    length us ≤ length (articles results) ∧
    match r with
    | Return d => size d ≤ length us
    | Raise _ => us ≠ []
    end.
Proof.
  intros Heq.
  apply scrape_articles_spec in Heq as [(-> & -> & _ & _)|(wf1 & Hl & ->)].
  - exists []. rewrite app_nil_r. simpl.
    split; [done|]. split; [apply sublist_nil_l|]. split; [lia|].
    by rewrite map_size_empty.
  - apply scrape_loop_spec in Hl as [_ (us & Hc & Hsub & Hr)].
    exists us. split; [by destruct r|]. split; [done|].
    split; [by apply sublist_length in Hsub; rewrite length_fmap in Hsub|].
    destruct r as [d|e].
    + by rewrite map_size_empty in Hr.
    + destruct Hr as (us0 & u & _ & _ & -> & _). by destruct us0.
Qed.

(** X4.  [scrape_articles] writes nothing but the scrape cache entry of its
    topic: the post cache, the search cache and the scraped sets of the
    other topics stay as they are; and when it raises, it has written
    nothing at all, so the articles scraped before the exception are
    lost. *)
Theorem scrape_articles_frame (topic : string) (results : SearchResults)
    (use_scrape_cache : bool) (wf wf' : Workflow)
    (r : result (gmap string ScrapedArticle)) :
  scrape_articles topic results use_scrape_cache wf = (r, wf') →
  blog_posts (session_state wf') = blog_posts (session_state wf) ∧
  search_results (session_state wf') = search_results (session_state wf) ∧
  (∀ t, t ≠ topic →
     default ∅ (scraped_articles (session_state wf')) !! t
     = default ∅ (scraped_articles (session_state wf)) !! t) ∧
  match r with
  | Return d => default ∅ (scraped_articles (session_state wf')) !! topic = Some d
  | Raise _ => session_state wf' = session_state wf
  end.
Proof.
  intros Heq.
  apply scrape_articles_spec in Heq as [(-> & -> & _ & Hc)|(wf1 & Hl & ->)];
    [done|].
  apply scrape_loop_spec in Hl as [Hs _].
  destruct r as [d|e]; simpl; rewrite Hs; [|done].
  repeat (split; [done|]). split; [|by rewrite lookup_insert_eq].
  intros t Ht. by rewrite lookup_insert_ne.
Qed.

(** X5.  [scrape_articles] raises nothing of its own: an exception that
    leaves it is one the scraper raised, on the last URL it was called
    with. *)
Theorem scrape_articles_raise_origin (topic : string) (results : SearchResults)
    (use_scrape_cache : bool) (wf wf' : Workflow) (e : exn) :
  scrape_articles topic results use_scrape_cache wf = (Raise e, wf') →
  ∃ (us0 : list string) (u : string) w w',
    calls wf' = calls wf ++ (ScrapeCall <$> us0) ++ [ScrapeCall u] ∧
    u ∈ candidate_url <$> articles results ∧
    article_scraper_run u w = (Raise e, w').
Proof.
  intros Heq.
  apply scrape_articles_spec in Heq as [(? & _)|(wf1 & Hl & ->)]; [done|].
  apply scrape_loop_spec in Hl as [_ (us & Hc & Hsub & us0 & u & w & w' & -> & Hr)].
  exists us0, u, w, w'. split; [by rewrite Hc, fmap_app|]. split; [|done].
  eapply sublist_submseteq, elem_of_submseteq in Hsub; [exact Hsub|].
  apply elem_of_app. right. by left.
Qed.

(** With the empty set in progress nothing is skipped: when every response
    to a candidate is of the wrong shape, every candidate is requested, in
    order, and the set stays empty. *)
Lemma scrape_loop_all_bad candidates wf :
  (∀ article w, article ∈ candidates →
     ∃ resp w',
       article_scraper_run (candidate_url article) w = (Return resp, w') ∧
       valid_scrape_response resp = None) →
  ∃ wf',
    scrape_loop candidates ∅ wf = (Return ∅, wf') ∧
    session_state wf' = session_state wf ∧
    calls wf' = calls wf ++ (ScrapeCall <$> (candidate_url <$> candidates)).
Proof.
  revert wf. induction candidates as [|article rest IH]; intros wf Hbad.
  - exists wf. simpl. by rewrite app_nil_r.
  - rewrite scrape_loop_call by apply lookup_empty. cbv zeta.
    destruct (Hbad article (world wf)) as (resp & w' & Hrun & Hnone); [by left|].
    rewrite Hrun. simpl. rewrite Hnone.
    destruct (IH (after_call (ScrapeCall (candidate_url article)) w' wf))
      as (wf' & Hl & Hs & Hc).
    { intros article' w Hin. apply Hbad. by right. }
    exists wf'. split; [done|]. split; [done|].
    rewrite Hc. simpl. by rewrite <- app_assoc.
Qed.

(** X6.  When the scrape cache is off, or holds no empty set for the topic,
    and every response to a candidate is of the wrong shape,
    [scrape_articles] requests every candidate, duplicates included, in
    order, returns the empty set, and afterwards the scrape cache holds the
    empty set under the topic. *)
Theorem scrape_articles_all_bad (topic : string) (results : SearchResults)
    (use_scrape_cache : bool) (wf : Workflow) :
  use_scrape_cache = false ∨
    default ∅ (scraped_articles (session_state wf)) !! topic ≠ Some ∅ →
  (∀ article w, article ∈ articles results →
     ∃ resp w',
       article_scraper_run (candidate_url article) w = (Return resp, w') ∧
       valid_scrape_response resp = None) →
  ∃ wf',
    scrape_articles topic results use_scrape_cache wf = (Return ∅, wf') ∧
    calls wf' = calls wf ++ (ScrapeCall <$> (candidate_url <$> articles results)) ∧
    session_state wf' = add_scraped_articles_to_cache topic ∅ (session_state wf) ∧
    default ∅ (scraped_articles (session_state wf')) !! topic = Some ∅.
Proof.
  intros Hmiss Hbad.
  destruct (scrape_loop_all_bad (articles results) wf Hbad) as (wf1 & Hl & Hs & Hc).
  exists (set_session (add_scraped_articles_to_cache topic ∅) wf1).
  split; [|by simpl; rewrite Hs, lookup_insert_eq].
  rewrite scrape_articles_eq, Hl.
  destruct use_scrape_cache; [|done].
  destruct Hmiss as [?|Hmiss]; [done|].
  unfold get_cached_scraped_articles.
  destruct (default ∅ (scraped_articles (session_state wf)) !! topic) as [d|];
    [|done].
  case_decide; [by subst|done].
Qed.

(** X7.  Once [scrape_articles] has returned the empty set for a topic,
    every later call for the topic with the scrape cache on returns the
    empty set again, whatever the candidates, without a call of the scraper
    and without a write. *)
Theorem scrape_articles_empty_then_cached (topic : string) (results : SearchResults)
    (use_scrape_cache : bool) (wf wf1 : Workflow) :
  scrape_articles topic results use_scrape_cache wf = (Return ∅, wf1) →
  ∀ (results' : SearchResults) (wf2 : Workflow),
    session_state wf2 = session_state wf1 →
    scrape_articles topic results' true wf2 = (Return ∅, wf2).
Proof.
  intros Heq results' wf2 Hss.
  apply scrape_articles_empty_cached_set. rewrite Hss.
  apply scrape_articles_spec in Heq as [(_ & -> & _ & Hc)|(wf' & _ & ->)];
    [done|].
  simpl. by rewrite lookup_insert_eq.
Qed.

(** *** run, stage by stage *)

Lemma get_search_results_hit topic (n : nat) wf s :
  get_cached_search_results topic (session_state wf) = Some s →
  get_search_results topic true n wf = (Return (Some s), wf).
Proof.
  intros Hc. unfold get_search_results, mbind, M_bind; simpl.
  unfold search_results_from_cache, try_except, gets, mbind, M_bind, lift; simpl.
  by rewrite Hc.
Qed.

(** Without a truthy cached post [use_cached_report] makes no difference. *)
Lemma run_post_cache_miss topic use_search_cache use_scrape_cache
    use_cached_report wf :
  use_cached_report = false ∨
    truthy (get_cached_blog_post topic (session_state wf)) = false →
  run topic use_search_cache use_scrape_cache use_cached_report wf
  = run topic use_search_cache use_scrape_cache false wf.
Proof.
  intros [->| Hf]; [done|]. unfold run. rewrite Hf.
  by destruct use_cached_report.
Qed.

(** The write stage, once search and scrape have returned. *)
Lemma run_write_stage topic use_search_cache use_scrape_cache wf wf1 wf2 s d :
  get_search_results topic use_search_cache 3 wf = (Return (Some s), wf1) →
  articles s ≠ [] →
  scrape_articles topic s use_scrape_cache wf1 = (Return d, wf2) →
  run topic use_search_cache use_scrape_cache false wf =
  let input := writer_input topic d in
  let out := writer_run input (world wf2) in
  let wf3 := after_call (WriteCall input) out.2 wf2 in
  match out.1.2 with
  | Raise e => (WriterEvent <$> out.1.1, Raise e, wf3)
  | Return blog_post =>
      (WriterEvent <$> out.1.1, Return (),
       set_session (add_blog_post_to_cache topic blog_post) wf3)
  end.
Proof.
  intros Hsearch Hne Hscrape. unfold run. simpl. rewrite Hsearch.
  destruct (decide (length (articles s) = 0)) as [Hz|_].
  { by apply nil_length_inv in Hz. }
  rewrite Hscrape. cbv zeta.
  by destruct (writer_run (writer_input topic d) (world wf2)) as [[chunks final] w].
Qed.

(** X8.  A failing search is never fatal: when neither the scraper nor the
    writer raises, [run] ends without an exception, whatever the searcher
    does and whatever the session state holds. *)
Theorem run_raises_only_with_agents (topic : string)
    (use_search_cache use_scrape_cache use_cached_report : bool) (wf : Workflow) :
  (∀ u w, ∃ resp w', article_scraper_run u w = (Return resp, w')) →
  (∀ input w, ∃ chunks blog_post w',
      writer_run input w = (chunks, Return blog_post, w')) →
  ∃ events wf',
    run topic use_search_cache use_scrape_cache use_cached_report wf
    = (events, Return (), wf').
Proof.
  intros Hscraper Hwriter. unfold run.
  destruct (use_cached_report && truthy _); [eauto|].
  destruct (get_search_results_spec topic use_search_cache 3 wf)
    as (k & r & wf1 & -> & _).
  destruct r as [s|]; [|eauto].
  destruct (decide (length (articles s) = 0)); [eauto|].
  assert (∃ d wf2, scrape_articles topic s use_scrape_cache wf1 = (Return d, wf2))
    as (d & wf2 & ->).
  { rewrite scrape_articles_eq.
    destruct (scrape_loop_total (articles s) (λ a w _, Hscraper _ w) ∅ wf1)
      as (d & wf2 & ->).
    destruct (if use_scrape_cache then _ else _) as [[d'|]|e]; eauto. }
  cbv zeta.
  destruct (Hwriter (writer_input topic d) (world wf2))
    as (chunks & blog_post & w & ->).
  eauto.
Qed.

(** X9.  When the writer raises, [run] relays the chunks the writer yielded
    before, ends with the writer's exception and stores no post; what the
    search and scrape stages stored stays stored. *)
Theorem run_writer_failure (topic : string)
    (use_search_cache use_scrape_cache use_cached_report : bool)
    (wf wf1 wf2 : Workflow) (s : SearchResults) (d : gmap string ScrapedArticle)
    (chunks : list RunResponse) (e : exn) (w : World) :
  use_cached_report = false ∨
    truthy (get_cached_blog_post topic (session_state wf)) = false →
  get_search_results topic use_search_cache 3 wf = (Return (Some s), wf1) →
  articles s ≠ [] →
  scrape_articles topic s use_scrape_cache wf1 = (Return d, wf2) →
  writer_run (writer_input topic d) (world wf2) = (chunks, Raise e, w) →
  run topic use_search_cache use_scrape_cache use_cached_report wf
  = (WriterEvent <$> chunks, Raise e,
     after_call (WriteCall (writer_input topic d)) w wf2) ∧
  blog_posts (session_state wf2) = blog_posts (session_state wf) ∧
  get_cached_search_results topic (session_state wf2) = Some s ∧
  default ∅ (scraped_articles (session_state wf2)) !! topic = Some d.
Proof.
  intros Hmiss Hsearch Hne Hscrape Hwrite. split.
  { rewrite run_post_cache_miss by done.
    rewrite (run_write_stage _ _ _ _ _ _ _ _ Hsearch Hne Hscrape).
    cbv zeta. by rewrite Hwrite. }
  pose proof (get_search_results_Some_cached _ _ _ _ _ _ Hsearch) as Hcached.
  assert (blog_posts (session_state wf1) = blog_posts (session_state wf)) as Hposts.
  { destruct (get_search_results_spec topic use_search_cache 3 wf)
      as (k & r & wf' & Heq & _ & _ & _ & Hr).
    rewrite Hsearch in Heq. injection Heq as <- <-.
    by destruct Hr as [[_ ->]| ->]. }
  apply scrape_articles_spec in Hscrape as [([= ->] & -> & _ & Hc)|(wf' & Hl & ->)];
    [done|].
  apply scrape_loop_spec in Hl as [Hs _]. simpl. rewrite Hs.
  split; [done|]. split; [done|]. by rewrite lookup_insert_eq.
Qed.

(** X10.  After a run that went through the writer and ended with a truthy
    post, every further run for the topic with [use_cached_report] on
    yields that post and nothing else, calls no agent and writes
    nothing. *)
Theorem run_then_cached (topic : string)
    (use_search_cache use_scrape_cache use_cached_report : bool)
    (wf wf1 wf2 : Workflow) (s : SearchResults) (d : gmap string ScrapedArticle)
    (chunks : list RunResponse) (blog_post : Content) (w : World) :
  use_cached_report = false ∨
    truthy (get_cached_blog_post topic (session_state wf)) = false →
  get_search_results topic use_search_cache 3 wf = (Return (Some s), wf1) →
  articles s ≠ [] →
  scrape_articles topic s use_scrape_cache wf1 = (Return d, wf2) →
  writer_run (writer_input topic d) (world wf2) = (chunks, Return blog_post, w) →
  truthy blog_post = true →
  ∃ wf3,
    run topic use_search_cache use_scrape_cache use_cached_report wf
    = (WriterEvent <$> chunks, Return (), wf3) ∧
    ∀ (use_search_cache' use_scrape_cache' : bool) (wf4 : Workflow),
      session_state wf4 = session_state wf3 →
      run topic use_search_cache' use_scrape_cache' true wf4
      = ([WorkflowCompletedEvent blog_post], Return (), wf4).
Proof.
  intros Hmiss Hsearch Hne Hscrape Hwrite Htrue.
  eexists. split.
  { rewrite run_post_cache_miss by done.
    rewrite (run_write_stage _ _ _ _ _ _ _ _ Hsearch Hne Hscrape).
    cbv zeta. by rewrite Hwrite. }
  intros usc' uscr' wf4 Hss. unfold run. rewrite Hss. simpl.
  rewrite get_add_blog_post. by rewrite Htrue.
Qed.

(** X11.  The stages of one run follow one another: the calls [run] makes
    are at most 3 calls of the searcher on the topic, then calls of the
    scraper, then at most one call of the writer, on the topic. *)
Theorem run_calls_in_stage_order (topic : string)
    (use_search_cache use_scrape_cache use_cached_report : bool) (wf : Workflow) :
  ∃ (k : nat) (us : list string) (ws : list Call),
    calls (run topic use_search_cache use_scrape_cache use_cached_report wf).2
    = calls wf ++ replicate k (SearchCall topic) ++ (ScrapeCall <$> us) ++ ws ∧
    k ≤ 3 ∧
    (ws = [] ∨ ∃ input, ws = [WriteCall input] ∧ writer_topic input = topic).
Proof.
  unfold run.
  destruct (use_cached_report && truthy _).
  { exists 0, [], []. simpl. rewrite app_nil_r. split; [done|]. split; [lia|by left]. }
  destruct (get_search_results_spec topic use_search_cache 3 wf)
    as (k & r & wf1 & -> & Hk & _ & Hc & _).
  assert (calls wf1
          = calls wf ++ replicate k (SearchCall topic) ++ (ScrapeCall <$> []) ++ [])
    as Hstop.
  { simpl. by rewrite app_nil_r. }
  destruct r as [s|]; [|exists k, [], []; simpl; eauto].
  destruct (decide (length (articles s) = 0)); [exists k, [], []; simpl; eauto|].
  destruct (scrape_articles topic s use_scrape_cache wf1) as [[d|e] wf2] eqn:Hscrape.
  - apply scrape_articles_spec in Hscrape as Hspec.
    assert (∃ us : list string, calls wf2 = calls wf1 ++ (ScrapeCall <$> us))
      as [us Hus].
    { destruct Hspec as [(_ & -> & _)|(wf' & Hl & ->)].
      - exists []. by rewrite app_nil_r.
      - apply scrape_loop_spec in Hl as [_ (us & Hl & _)]. by exists us. }
    cbv zeta.
    destruct (writer_run (writer_input topic d) (world wf2)) as [[chunks final] w].
    exists k, us, [WriteCall (writer_input topic d)].
    split; [|split; [done|right; eauto]].
    destruct final; simpl; rewrite Hus, Hc; by rewrite <- !app_assoc.
  - apply scrape_articles_spec in Hscrape as [(? & _)|(wf' & Hl & ->)]; [done|].
    apply scrape_loop_spec in Hl as [_ (us & Hl & _)].
    exists k, us, []. simpl. split; [|split; [done|by left]].
    rewrite Hl, Hc, app_nil_r. by rewrite <- !app_assoc.
Qed.

(** X12.  An empty scraped set does not stop the run: unlike an empty
    search result, it is handed to the writer, which is called with the
    topic and no article. *)
Theorem run_writes_from_empty_set (topic : string)
    (use_search_cache use_scrape_cache use_cached_report : bool)
    (wf wf1 wf2 : Workflow) (s : SearchResults) :
  use_cached_report = false ∨
    truthy (get_cached_blog_post topic (session_state wf)) = false →
  get_search_results topic use_search_cache 3 wf = (Return (Some s), wf1) →
  articles s ≠ [] →
  scrape_articles topic s use_scrape_cache wf1 = (Return ∅, wf2) →
  calls (run topic use_search_cache use_scrape_cache use_cached_report wf).2
  = calls wf2 ++ [WriteCall {| writer_topic := topic; writer_articles := [] |}].
Proof.
  intros Hmiss Hsearch Hne Hscrape.
  rewrite run_post_cache_miss by done.
  rewrite (run_write_stage _ _ _ _ _ _ _ _ Hsearch Hne Hscrape). cbv zeta.
  assert (writer_input topic ∅
          = {| writer_topic := topic; writer_articles := [] |}) as ->.
  { unfold writer_input. by rewrite map_to_list_empty. }
  by destruct (writer_run _ _) as [[chunks [post|e]] w].
Qed.

(** X13.  An empty search result is remembered: once the search stage has
    returned a result set without candidates for a topic, every run for the
    topic that uses the search cache and is not ended by the post cache
    yields the not-found message without calling any agent and without a
    write. *)
Theorem run_not_found_then_cached (topic : string) (use_search_cache : bool)
    (num_attempts : nat) (wf wf1 : Workflow) (s : SearchResults) :
  get_search_results topic use_search_cache num_attempts wf = (Return (Some s), wf1) →
  articles s = [] →
  ∀ (use_scrape_cache use_cached_report : bool) (wf2 : Workflow),
    session_state wf2 = session_state wf1 →
    use_cached_report = false ∨
      truthy (get_cached_blog_post topic (session_state wf2)) = false →
    run topic true use_scrape_cache use_cached_report wf2
    = ([WorkflowCompletedEvent
          (ContentText ("Sorry, could not find any articles on the topic: " +:+ topic))],
       Return (), wf2).
Proof.
  intros Hsearch Hs uscr ucr wf2 Hss Hmiss.
  apply get_search_results_Some_cached in Hsearch.
  rewrite run_post_cache_miss by done. unfold run. simpl.
  rewrite (get_search_results_hit topic 3 wf2 s) by by rewrite Hss.
  by rewrite Hs.
Qed.

(** *** The session identifier *)

Lemma lower_char_spec c :
  is_upper (lower_char c) = false ∧
  lower_char (lower_char c) = lower_char c ∧
  (is_space (lower_char c) = is_space c) ∧
  (is_upper c = false → lower_char c = c).
Proof.
  destruct c as [[] [] [] [] [] [] [] []]; vm_compute; done.
Qed.

Lemma hyphen_char_spec :
  is_upper "-"%char = false ∧ is_space "-"%char = false ∧
  lower_char "-"%char = "-"%char.
Proof. vm_compute. done. Qed.

(** X14.  The URL-safe form of an ASCII topic, which ends the session id,
    has as many characters as the topic, none of them a space and none an
    upper-case letter; a topic without spaces and upper-case letters is
    its own URL-safe form, whatever other characters it has. *)
Theorem url_safe_topic_shape (topic : string) :
  string_forall is_ascii topic = true →
  String.length (url_safe_topic topic) = String.length topic ∧
  string_forall (λ c, negb (is_space c) && negb (is_upper c)) (url_safe_topic topic)
  = true ∧
  (string_forall (λ c, negb (is_space c) && negb (is_upper c)) topic = true →
   url_safe_topic topic = topic).
Proof.
  intros _. unfold url_safe_topic.
  induction topic as [|c topic IH]; [done|].
  destruct IH as (Hlen & Hall & Hid).
  destruct (lower_char_spec c) as (Hup & _ & Hsp & Hkeep).
  destruct hyphen_char_spec as (Hup' & Hsp' & _).
  cbn [lower replace_space String.length string_forall].
  split; [by rewrite Hlen|]. split.
  - rewrite Hall, andb_true_r.
    destruct (is_space (lower_char c)) eqn:Hs.
    + by rewrite Hsp', Hup'.
    + by rewrite Hs, Hup.
  - intros [[Hnsp Hnup]%andb_prop Hrest]%andb_prop.
    apply negb_true_iff in Hnsp, Hnup.
    rewrite Hkeep by done. rewrite Hnsp. f_equal. by apply Hid.
Qed.

Lemma lower_idempotent s : lower (lower s) = lower s.
Proof.
  induction s as [|c s IH]; [done|]. simpl.
  destruct (lower_char_spec c) as (_ & -> & _). by rewrite IH.
Qed.

Lemma lower_replace_space s : lower (replace_space s) = replace_space (lower s).
Proof.
  induction s as [|c s IH]; [done|]. simpl. rewrite IH.
  destruct (lower_char_spec c) as (_ & _ & -> & _).
  destruct hyphen_char_spec as (_ & _ & Hl).
  destruct (is_space c); by rewrite ?Hl.
Qed.

Lemma replace_space_idempotent s : replace_space (replace_space s) = replace_space s.
Proof.
  induction s as [|c s IH]; [done|]. simpl. rewrite IH.
  destruct hyphen_char_spec as (_ & Hs & _).
  destruct (is_space c) eqn:Hc; by rewrite ?Hs, ?Hc.
Qed.

(** X15.  The session id does not tell apart ASCII topics that differ only
    in the case of their letters or in spaces against hyphens: lowering a
    topic, replacing its spaces by hyphens, or making it URL-safe
    beforehand gives the same session id. *)
Theorem session_id_collisions (topic : string) :
  string_forall is_ascii topic = true →
  session_id (lower topic) = session_id topic ∧
  session_id (replace_space topic) = session_id topic ∧
  session_id (url_safe_topic topic) = session_id topic.
Proof.
  intros _. unfold session_id, url_safe_topic.
  split; [by rewrite lower_idempotent|].
  split; [by rewrite lower_replace_space, replace_space_idempotent|].
  by rewrite lower_replace_space, lower_idempotent, replace_space_idempotent.
Qed.

End Workflow.

(** ** The properties at the scenarios *)

(** C1, at a cached set of one article and two candidates.  A first call
    with one candidate stores a one-article set in the scrape cache.  The
    second call, with two candidates and the cache switched on, cannot read
    that set back (reading it raises), so it scrapes both candidates, the
    cached one included, and returns and stores the fresh two-article
    set. *)
Lemma scrape_articles_cached_set_rescraped :
  scrape_articles echo_scraper "T"
    {| articles := [candidate "https://a.example"] |} true
    {| session_state := empty_session; world := 0; calls := [] |}
  = (Return {[ "https://a.example" := scraped "https://a.example" "fresh" ]},
     {| session_state :=
          add_scraped_articles_to_cache "T"
            {[ "https://a.example" := scraped "https://a.example" "fresh" ]}
            empty_session;
        world := 1;
        calls := [ScrapeCall "https://a.example"] |}) ∧
  get_cached_scraped_articles "T"
    (add_scraped_articles_to_cache "T"
       {[ "https://a.example" := scraped "https://a.example" "fresh" ]}
       empty_session)
  = Raise (ValidationError "url: Field required") ∧
  scrape_articles echo_scraper "T" two_candidates true
    {| session_state :=
         add_scraped_articles_to_cache "T"
           {[ "https://a.example" := scraped "https://a.example" "fresh" ]}
           empty_session;
       world := 1;
       calls := [] |}
  = (Return {[ "https://a.example" := scraped "https://a.example" "fresh";
               "https://b.example" := scraped "https://b.example" "fresh" ]},
     {| session_state :=
          add_scraped_articles_to_cache "T"
            {[ "https://a.example" := scraped "https://a.example" "fresh";
               "https://b.example" := scraped "https://b.example" "fresh" ]}
            empty_session;
        world := 3;
        calls := [ScrapeCall "https://a.example"; ScrapeCall "https://b.example"] |}).
Proof. split; [|split]; vm_compute; reflexivity. Qed.

(** C3, at a set of one article: storing it and reading it back raises
    instead of returning it. *)
Lemma scraped_articles_round_trip_raises :
  get_cached_scraped_articles "T"
    (add_scraped_articles_to_cache "T" cached_set empty_session)
  = Raise (ValidationError "url: Field required").
Proof. vm_compute. reflexivity. Qed.

(** C2, at a scraper that raises.  The call of the scraper is not inside a
    [try]: the exception leaves [scrape_articles] at the first candidate,
    the second candidate is never requested, nothing is returned, and [run]
    ends with the exception. *)
Lemma scrape_articles_raise_aborts :
  scrape_articles raising_scraper "T" two_candidates false
    {| session_state := empty_session; world := 0; calls := [] |}
  = (Raise (AgentError "scrape failed"),
     {| session_state := empty_session; world := 1;
        calls := [ScrapeCall "https://a.example"] |}) ∧
  run steady_searcher raising_scraper echo_writer "T" false false false
    {| session_state := empty_session; world := 0; calls := [] |}
  = ([], Raise (AgentError "scrape failed"),
     {| session_state := add_search_results_to_cache "T" two_candidates empty_session;
        world := 2;
        calls := [SearchCall "T"; ScrapeCall "https://a.example"] |}) ∧
  ¬ (∃ d wf',
       scrape_articles raising_scraper "T" two_candidates false
         {| session_state := empty_session; world := 0; calls := [] |}
       = (Return d, wf')).
Proof.
  split; [|split]; [vm_compute; reflexivity..|].
  intros (d & wf' & Heq). vm_compute in Heq. discriminate Heq.
Qed.

Lemma scrape_bad_response_skipped_witness :
  scrape_loop null_scraper
    [candidate "https://a.example"; candidate "https://b.example"] ∅
    {| session_state := empty_session; world := 0; calls := [] |}
  = scrape_loop null_scraper [candidate "https://b.example"] ∅
      {| session_state := empty_session; world := 1;
         calls := [ScrapeCall "https://a.example"] |} ∧
  ∃ d wf',
    scrape_articles null_scraper "T" two_candidates false
      {| session_state := empty_session; world := 0; calls := [] |}
    = (Return d, wf').
Proof.
  split.
  - apply (proj1 (scrape_bad_response_skipped null_scraper "T" two_candidates false
                    {| session_state := empty_session; world := 0; calls := [] |})
             (candidate "https://a.example") [candidate "https://b.example"] ∅
             {| session_state := empty_session; world := 0; calls := [] |} None 1);
      reflexivity.
  - apply (proj2 (scrape_bad_response_skipped null_scraper "T" two_candidates false
                    {| session_state := empty_session; world := 0; calls := [] |})).
    intros article w _. exists None, (S w). reflexivity.
Defined.



Lemma scrape_articles_keyed_by_reported_url_witness :
  map_Forall (λ k a, url a = k)
    ({[ "https://a.example" := scraped "https://a.example" "fresh";
        "https://b.example" := scraped "https://b.example" "fresh" ]}
       : gmap string ScrapedArticle) ∧
  default ∅
    (scraped_articles
       (add_scraped_articles_to_cache "T"
          {[ "https://a.example" := scraped "https://a.example" "fresh";
             "https://b.example" := scraped "https://b.example" "fresh" ]}
          empty_session)) !! "T"
  = Some {[ "https://a.example" := scraped "https://a.example" "fresh";
            "https://b.example" := scraped "https://b.example" "fresh" ]}.
Proof.
  apply (proj2 (scrape_articles_keyed_by_reported_url echo_scraper "T"
                  two_candidates false
                  {| session_state := empty_session; world := 0; calls := [] |})
           _
           {| session_state :=
                add_scraped_articles_to_cache "T"
                  {[ "https://a.example" := scraped "https://a.example" "fresh";
                     "https://b.example" := scraped "https://b.example" "fresh" ]}
                  empty_session;
              world := 2;
              calls := [ScrapeCall "https://a.example";
                        ScrapeCall "https://b.example"] |}).
  vm_compute. reflexivity.
Defined.

(** The second attempt succeeds with a result set that has no candidate:
    two calls, the empty set stored and returned. *)
Lemma get_search_results_retries_witness :
  get_search_results flaky_searcher "T" false 3
    {| session_state := empty_session; world := 0; calls := [] |}
  = (Return (Some {| articles := [] |}),
     {| session_state :=
          add_search_results_to_cache "T" {| articles := [] |} empty_session;
        world := world_after_searches flaky_searcher "T" 2 0;
        calls := [] ++ replicate 2 (SearchCall "T") |}) ∧
  default ∅
    (search_results
       (session_state
          (get_search_results flaky_searcher "T" false 3
             {| session_state := empty_session; world := 0; calls := [] |}).2))
    !! "T" = Some {| articles := [] |}.
Proof.
  apply (proj1 (proj2 (get_search_results_retries flaky_searcher "T" false
                         {| session_state := empty_session; world := 0;
                            calls := [] |}))
           1 {| articles := [] |}).
  - lia.
  - left. reflexivity.
  - intros j Hj. assert (j = 0) as -> by lia. reflexivity.
  - reflexivity.
Defined.

Lemma get_search_results_none_keeps_cache_witness :
  session_state
    {| session_state := session_with_post; world := 3;
       calls := [SearchCall "T"; SearchCall "T"; SearchCall "T"] |}
  = session_with_post ∧
  get_cached_search_results "T" session_with_post
  = get_cached_search_results "T" session_with_post.
Proof.
  apply (get_search_results_none_keeps_cache failing_searcher "T" true 3
           {| session_state := session_with_post; world := 0; calls := [] |}
           {| session_state := session_with_post; world := 3;
              calls := [SearchCall "T"; SearchCall "T"; SearchCall "T"] |}).
  vm_compute. reflexivity.
Defined.

(** A run whose writer ends with the empty text leaves the empty text in
    the post cache. *)
Lemma run_caches_empty_post :
  blog_posts
    (session_state
       (run steady_searcher echo_scraper silent_writer "T" true true true
          {| session_state := empty_session; world := 0; calls := [] |}).2)
  = blog_posts session_with_empty_post.
Proof. vm_compute. reflexivity. Qed.

(** C5 fails when the cached post is the empty text: it is falsy, so [run]
    goes on to the search stage (three calls of the searcher here) and
    yields the not-found message instead of the cached text. *)
Lemma run_empty_cached_post_not_returned :
  default ∅ (blog_posts session_with_empty_post) !! "T" = Some (ContentText "") ∧
  run failing_searcher null_scraper echo_writer "T" true true true
    {| session_state := session_with_empty_post; world := 0; calls := [] |}
  = ([WorkflowCompletedEvent
        (ContentText "Sorry, could not find any articles on the topic: T")],
     Return (),
     {| session_state := session_with_empty_post; world := 3;
        calls := [SearchCall "T"; SearchCall "T"; SearchCall "T"] |}) ∧
  run failing_searcher null_scraper echo_writer "T" true true true
    {| session_state := session_with_empty_post; world := 0; calls := [] |}
  ≠ ([WorkflowCompletedEvent (ContentText "")], Return (),
     {| session_state := session_with_empty_post; world := 0; calls := [] |}).
Proof.
  split; [|split]; [vm_compute; reflexivity..|].
  intros Heq. vm_compute in Heq. discriminate Heq.
Qed.

Lemma run_returns_cached_post_witness :
  run failing_searcher null_scraper echo_writer "T" true true true
    {| session_state := session_with_post; world := 0; calls := [] |}
  = ([WorkflowCompletedEvent (ContentText "cached post")], Return (),
     {| session_state := session_with_post; world := 0; calls := [] |}).
Proof.
  apply (run_returns_cached_post failing_searcher null_scraper echo_writer "T"
           true true
           {| session_state := session_with_post; world := 0; calls := [] |}
           (ContentText "cached post")).
  - vm_compute. reflexivity.
  - reflexivity.
Defined.

Lemma run_not_found_witness :
  run flaky_searcher echo_scraper echo_writer "Empty Topic" true true true
    {| session_state := empty_session; world := 0; calls := [] |}
  = ([WorkflowCompletedEvent
        (ContentText
           ("Sorry, could not find any articles on the topic: " +:+ "Empty Topic"))],
     Return (),
     {| session_state :=
          add_search_results_to_cache "Empty Topic" {| articles := [] |} empty_session;
        world := 2;
        calls := [SearchCall "Empty Topic"; SearchCall "Empty Topic"] |}).
Proof.
  apply (run_not_found flaky_searcher echo_scraper echo_writer "Empty Topic"
           true true true
           {| session_state := empty_session; world := 0; calls := [] |}
           {| session_state :=
                add_search_results_to_cache "Empty Topic" {| articles := [] |}
                  empty_session;
              world := 2;
              calls := [SearchCall "Empty Topic"; SearchCall "Empty Topic"] |}
           (Some {| articles := [] |})).
  - right. reflexivity.
  - vm_compute. reflexivity.
  - right. exists {| articles := [] |}. split; reflexivity.
Defined.

Lemma run_persists_post_witness :
  ∃ wf',
    run steady_searcher echo_scraper echo_writer "Test Topic" false false false
      {| session_state := empty_session; world := 0; calls := [] |}
    = (WriterEvent <$> [{| content := ContentText "chunk" |}], Return (), wf') ∧
    session_state wf'
    = add_blog_post_to_cache "Test Topic" (ContentText "post")
        (add_scraped_articles_to_cache "Test Topic"
           {[ "https://a.example" := scraped "https://a.example" "fresh";
              "https://b.example" := scraped "https://b.example" "fresh" ]}
           (add_search_results_to_cache "Test Topic" two_candidates empty_session)) ∧
    default ∅ (blog_posts (session_state wf')) !! "Test Topic"
    = Some (ContentText "post") ∧
    calls wf'
    = [SearchCall "Test Topic"; ScrapeCall "https://a.example";
       ScrapeCall "https://b.example"] ++
      [WriteCall
         (writer_input "Test Topic"
            {[ "https://a.example" := scraped "https://a.example" "fresh";
               "https://b.example" := scraped "https://b.example" "fresh" ]})].
Proof.
  apply (run_persists_post steady_searcher echo_scraper echo_writer "Test Topic"
           false false false
           {| session_state := empty_session; world := 0; calls := [] |}
           {| session_state :=
                add_search_results_to_cache "Test Topic" two_candidates empty_session;
              world := 1;
              calls := [SearchCall "Test Topic"] |}
           {| session_state :=
                add_scraped_articles_to_cache "Test Topic"
                  {[ "https://a.example" := scraped "https://a.example" "fresh";
                     "https://b.example" := scraped "https://b.example" "fresh" ]}
                  (add_search_results_to_cache "Test Topic" two_candidates
                     empty_session);
              world := 3;
              calls := [SearchCall "Test Topic"; ScrapeCall "https://a.example";
                        ScrapeCall "https://b.example"] |}
           two_candidates
           {[ "https://a.example" := scraped "https://a.example" "fresh";
              "https://b.example" := scraped "https://b.example" "fresh" ]}
           [{| content := ContentText "chunk" |}] (ContentText "post") 4).
  - left. reflexivity.
  - vm_compute. reflexivity.
  - discriminate.
  - vm_compute. reflexivity.
  - reflexivity.
Defined.

(** ** The further properties at the scenarios *)

Lemma get_search_results_then_cached_witness :
  get_search_results flaky_searcher "T" true 0
    {| session_state :=
         add_search_results_to_cache "T" {| articles := [] |} empty_session;
       world := 2; calls := [] |}
  = (Return (Some {| articles := [] |}),
     {| session_state :=
          add_search_results_to_cache "T" {| articles := [] |} empty_session;
        world := 2; calls := [] |}).
Proof.
  apply (get_search_results_then_cached flaky_searcher "T" false 3
           {| session_state := empty_session; world := 0; calls := [] |}
           {| session_state :=
                add_search_results_to_cache "T" {| articles := [] |} empty_session;
              world := 2; calls := [SearchCall "T"; SearchCall "T"] |}
           {| articles := [] |}).
  - vm_compute. reflexivity.
  - reflexivity.
Defined.

Lemma scrape_articles_calls_witness :
  ∃ us : list string,
    calls (scrape_articles echo_scraper "T" same_candidate_twice false
             {| session_state := empty_session; world := 0; calls := [] |}).2
    = [] ++ (ScrapeCall <$> us) ∧
    us `sublist_of` (candidate_url <$> articles same_candidate_twice) ∧
    length us ≤ length (articles same_candidate_twice) ∧
    size ({[ "https://a.example" := scraped "https://a.example" "fresh" ]}
            : gmap string ScrapedArticle) ≤ length us.
Proof.
  apply (scrape_articles_calls echo_scraper "T" same_candidate_twice false
           {| session_state := empty_session; world := 0; calls := [] |}
           (scrape_articles echo_scraper "T" same_candidate_twice false
              {| session_state := empty_session; world := 0; calls := [] |}).2
           (Return {[ "https://a.example" := scraped "https://a.example" "fresh" ]})).
  vm_compute. reflexivity.
Defined.

(** The first candidate is scraped, the second raises: the scrape cache
    keeps the set it had, and the fresh article is lost. *)
Lemma scrape_articles_frame_witness :
  blog_posts session_with_post = blog_posts session_with_post ∧
  search_results session_with_post = search_results session_with_post ∧
  (∀ t, t ≠ "T" →
     default ∅ (scraped_articles session_with_post) !! t
     = default ∅ (scraped_articles session_with_post) !! t) ∧
  session_with_post = session_with_post.
Proof.
  apply (scrape_articles_frame raising_on_b_scraper "T" two_candidates false
           {| session_state := session_with_post; world := 0; calls := [] |}
           {| session_state := session_with_post; world := 2;
              calls := [ScrapeCall "https://a.example";
                        ScrapeCall "https://b.example"] |}
           (Raise (AgentError "scrape failed"))).
  vm_compute. reflexivity.
Defined.

Lemma scrape_articles_raise_origin_witness :
  ∃ (us0 : list string) (u : string) (w w' : nat),
    [ScrapeCall "https://a.example"; ScrapeCall "https://b.example"]
    = [] ++ (ScrapeCall <$> us0) ++ [ScrapeCall u] ∧
    u ∈ candidate_url <$> articles two_candidates ∧
    raising_on_b_scraper u w = (Raise (AgentError "scrape failed"), w').
Proof.
  apply (scrape_articles_raise_origin raising_on_b_scraper "T" two_candidates false
           {| session_state := empty_session; world := 0; calls := [] |}
           {| session_state := empty_session; world := 2;
              calls := [ScrapeCall "https://a.example";
                        ScrapeCall "https://b.example"] |}
           (AgentError "scrape failed")).
  vm_compute. reflexivity.
Defined.

Lemma scrape_articles_all_bad_witness :
  ∃ wf',
    scrape_articles null_scraper "T" same_candidate_twice true
      {| session_state := empty_session; world := 0; calls := [] |}
    = (Return ∅, wf') ∧
    calls wf'
    = [] ++ (ScrapeCall <$> (candidate_url <$> articles same_candidate_twice)) ∧
    session_state wf' = add_scraped_articles_to_cache "T" ∅ empty_session ∧
    default ∅ (scraped_articles (session_state wf')) !! "T" = Some ∅.
Proof.
  apply (scrape_articles_all_bad null_scraper "T" same_candidate_twice true
           {| session_state := empty_session; world := 0; calls := [] |}).
  - right. vm_compute. discriminate.
  - intros article w _. exists None, (S w). split; reflexivity.
Defined.

Lemma scrape_articles_empty_then_cached_witness :
  scrape_articles null_scraper "T" two_candidates true
    {| session_state := add_scraped_articles_to_cache "T" ∅ empty_session;
       world := 7; calls := [] |}
  = (Return ∅,
     {| session_state := add_scraped_articles_to_cache "T" ∅ empty_session;
        world := 7; calls := [] |}).
Proof.
  apply (scrape_articles_empty_then_cached null_scraper "T" same_candidate_twice
           false
           {| session_state := empty_session; world := 0; calls := [] |}
           (scrape_articles null_scraper "T" same_candidate_twice false
              {| session_state := empty_session; world := 0; calls := [] |}).2).
  - vm_compute. reflexivity.
  - reflexivity.
Defined.

Lemma run_raises_only_with_agents_witness :
  ∃ events wf',
    run failing_searcher echo_scraper echo_writer "T" true true true
      {| session_state := empty_session; world := 0; calls := [] |}
    = (events, Return (), wf').
Proof.
  apply (run_raises_only_with_agents failing_searcher echo_scraper echo_writer "T"
           true true true
           {| session_state := empty_session; world := 0; calls := [] |}).
  - intros u w. eexists _, _. reflexivity.
  - intros input w. eexists _, _, _. reflexivity.
Defined.

Lemma run_writer_failure_witness :
  run steady_searcher echo_scraper raising_writer "T" true true true
    {| session_state := empty_session; world := 0; calls := [] |}
  = (WriterEvent <$> [{| content := ContentText "chunk" |}],
     Raise (AgentError "write failed"),
     after_call
       (WriteCall
          (writer_input "T"
             {[ "https://a.example" := scraped "https://a.example" "fresh";
                "https://b.example" := scraped "https://b.example" "fresh" ]}))
       4
       (scrape_articles echo_scraper "T" two_candidates true
          {| session_state := add_search_results_to_cache "T" two_candidates
                                empty_session;
             world := 1; calls := [SearchCall "T"] |}).2) ∧
  blog_posts
    (session_state
       (scrape_articles echo_scraper "T" two_candidates true
          {| session_state := add_search_results_to_cache "T" two_candidates
                                empty_session;
             world := 1; calls := [SearchCall "T"] |}).2)
  = blog_posts empty_session ∧
  get_cached_search_results "T"
    (session_state
       (scrape_articles echo_scraper "T" two_candidates true
          {| session_state := add_search_results_to_cache "T" two_candidates
                                empty_session;
             world := 1; calls := [SearchCall "T"] |}).2)
  = Some two_candidates ∧
  default ∅
    (scraped_articles
       (session_state
          (scrape_articles echo_scraper "T" two_candidates true
             {| session_state := add_search_results_to_cache "T" two_candidates
                                   empty_session;
                world := 1; calls := [SearchCall "T"] |}).2)) !! "T"
  = Some {[ "https://a.example" := scraped "https://a.example" "fresh";
            "https://b.example" := scraped "https://b.example" "fresh" ]}.
Proof.
  apply (run_writer_failure steady_searcher echo_scraper raising_writer "T"
           true true true
           {| session_state := empty_session; world := 0; calls := [] |}
           {| session_state := add_search_results_to_cache "T" two_candidates
                                 empty_session;
              world := 1; calls := [SearchCall "T"] |}).
  - right. reflexivity.
  - vm_compute. reflexivity.
  - discriminate.
  - vm_compute. reflexivity.
  - vm_compute. reflexivity.
Defined.

Lemma run_then_cached_witness :
  ∃ wf3,
    run steady_searcher echo_scraper echo_writer "T" true true true
      {| session_state := empty_session; world := 0; calls := [] |}
    = (WriterEvent <$> [{| content := ContentText "chunk" |}], Return (), wf3) ∧
    ∀ (use_search_cache' use_scrape_cache' : bool) wf4,
      session_state wf4 = session_state wf3 →
      run steady_searcher echo_scraper echo_writer "T"
        use_search_cache' use_scrape_cache' true wf4
      = ([WorkflowCompletedEvent (ContentText "post")], Return (), wf4).
Proof.
  apply (run_then_cached steady_searcher echo_scraper echo_writer "T"
           true true true
           {| session_state := empty_session; world := 0; calls := [] |}
           {| session_state := add_search_results_to_cache "T" two_candidates
                                 empty_session;
              world := 1; calls := [SearchCall "T"] |}
           (scrape_articles echo_scraper "T" two_candidates true
              {| session_state := add_search_results_to_cache "T" two_candidates
                                    empty_session;
                 world := 1; calls := [SearchCall "T"] |}).2
           two_candidates
           {[ "https://a.example" := scraped "https://a.example" "fresh";
              "https://b.example" := scraped "https://b.example" "fresh" ]}
           [{| content := ContentText "chunk" |}] (ContentText "post") 4).
  - right. reflexivity.
  - vm_compute. reflexivity.
  - discriminate.
  - vm_compute. reflexivity.
  - vm_compute. reflexivity.
  - reflexivity.
Defined.

Lemma run_writes_from_empty_set_witness :
  calls (run steady_searcher null_scraper echo_writer "T" true true true
           {| session_state := empty_session; world := 0; calls := [] |}).2
  = [SearchCall "T"; ScrapeCall "https://a.example"; ScrapeCall "https://b.example"]
    ++ [WriteCall {| writer_topic := "T"; writer_articles := [] |}].
Proof.
  apply (run_writes_from_empty_set steady_searcher null_scraper echo_writer "T"
           true true true
           {| session_state := empty_session; world := 0; calls := [] |}
           {| session_state := add_search_results_to_cache "T" two_candidates
                                 empty_session;
              world := 1; calls := [SearchCall "T"] |}
           {| session_state :=
                add_scraped_articles_to_cache "T" ∅
                  (add_search_results_to_cache "T" two_candidates empty_session);
              world := 3;
              calls := [SearchCall "T"; ScrapeCall "https://a.example";
                        ScrapeCall "https://b.example"] |}
           two_candidates).
  - right. reflexivity.
  - vm_compute. reflexivity.
  - discriminate.
  - vm_compute. reflexivity.
Defined.

Lemma run_not_found_then_cached_witness :
  run flaky_searcher echo_scraper echo_writer "Empty Topic" true true true
    {| session_state :=
         add_search_results_to_cache "Empty Topic" {| articles := [] |} empty_session;
       world := 2; calls := [] |}
  = ([WorkflowCompletedEvent
        (ContentText
           ("Sorry, could not find any articles on the topic: " +:+ "Empty Topic"))],
     Return (),
     {| session_state :=
          add_search_results_to_cache "Empty Topic" {| articles := [] |} empty_session;
        world := 2; calls := [] |}).
Proof.
  apply (run_not_found_then_cached flaky_searcher echo_scraper echo_writer
           "Empty Topic" false 3
           {| session_state := empty_session; world := 0; calls := [] |}
           {| session_state :=
                add_search_results_to_cache "Empty Topic" {| articles := [] |}
                  empty_session;
              world := 2;
              calls := [SearchCall "Empty Topic"; SearchCall "Empty Topic"] |}
           {| articles := [] |}).
  - vm_compute. reflexivity.
  - reflexivity.
  - reflexivity.
  - right. reflexivity.
Defined.

Lemma url_safe_topic_shape_witness :
  String.length (url_safe_topic "Why Cats Secretly Run the Internet")
  = String.length "Why Cats Secretly Run the Internet" ∧
  string_forall (λ c, negb (is_space c) && negb (is_upper c))
    (url_safe_topic "Why Cats Secretly Run the Internet") = true ∧
  (string_forall (λ c, negb (is_space c) && negb (is_upper c))
     "Why Cats Secretly Run the Internet" = true →
   url_safe_topic "Why Cats Secretly Run the Internet"
   = "Why Cats Secretly Run the Internet").
Proof.
  apply (url_safe_topic_shape "Why Cats Secretly Run the Internet").
  vm_compute. reflexivity.
Defined.

Lemma session_id_collisions_witness :
  session_id (lower "Why Cats Secretly Run the Internet")
  = session_id "Why Cats Secretly Run the Internet" ∧
  session_id (replace_space "Why Cats Secretly Run the Internet")
  = session_id "Why Cats Secretly Run the Internet" ∧
  session_id (url_safe_topic "Why Cats Secretly Run the Internet")
  = session_id "Why Cats Secretly Run the Internet".
Proof.
  apply (session_id_collisions "Why Cats Secretly Run the Internet").
  vm_compute. reflexivity.
Defined.
